(** * Billing dashboards: run resolution, snapshots, aggregation, caching

  A shallow embedding of the calculation-run data-access layer of the
  billing application:

  - [Models]             billing/models_calculation.py
  - [DataAccess]         billing/services/data_access.py
  - [DataAccessService]  billing/services/data_access_service.py

  Python [float] is IEEE binary64 and is modelled by Rocq's primitive
  floats.  Exceptions are modelled by the [outcome] monad of module [Py];
  the database tables, the media directory and Django's cache are passed
  explicitly as state. *)

From Stdlib Require Import Floats ZArith.
From stdpp Require Import gmap strings list sorting.

(** ** Python: exceptions, truthiness, float operators *)

Module Py.

Inductive exn :=
| DoesNotExist
| KeyError (key : string)
| IndexError (msg : string)
| TypeError (msg : string)
| ValueError (msg : string)
| ZeroDivisionError
| FileNotFoundError (msg : string)
| ArrowInvalid (path : string).

(** [str(e)] *)
Definition str (e : exn) : string :=
  match e with
  | DoesNotExist => "CalculationRun matching query does not exist."
  | KeyError key => "'" +:+ key +:+ "'"
  | IndexError msg | TypeError msg | ValueError msg | FileNotFoundError msg => msg
  | ZeroDivisionError => "float division by zero"
  | ArrowInvalid path => "Could not open Parquet input source '" +:+ path +:+ "'"
  end.

(** A call either returns a value or raises. *)
Inductive outcome (A : Type) :=
| Return (a : A)
| Raise (e : exn).
Arguments Return {A} a.
Arguments Raise {A} e.

#[global] Instance outcome_ret : MRet outcome := @Return.
#[global] Instance outcome_bind : MBind outcome := λ A B f m,
  match m with
  | Return a => f a
  | Raise e => Raise e
  end.
#[global] Instance outcome_fmap : FMap outcome := λ A B f m,
  match m with
  | Return a => Return (f a)
  | Raise e => Raise e
  end.

(** [try: body / except Exception as e: handler e] *)
Definition try_except {A} (body : outcome A) (handler : exn → outcome A) : outcome A :=
  match body with
  | Return a => Return a
  | Raise e => handler e
  end.

(** [try: body / except <Model>.DoesNotExist: handler]; any other
    exception propagates. *)
Definition try_except_DoesNotExist {A} (body : outcome A) (handler : outcome A) : outcome A :=
  match body with
  | Return a => Return a
  | Raise DoesNotExist => handler
  | Raise e => Raise e
  end.

(** [bool(x)] of a float: every value but zero is true (NaN included). *)
Definition truthy (x : float) : bool := negb (x =? 0)%float.

(** [bool(s)] of a string: every string but the empty one is true. *)
Definition nonempty (s : string) : bool := negb (String.eqb s EmptyString).

(** [x > 0] *)
Definition gt0 (x : float) : bool := (0 <? x)%float.

(** [a / b] on Python floats. *)
Definition truediv (a b : float) : outcome float :=
  if (b =? 0)%float then Raise ZeroDivisionError else Return (a / b)%float.

(** Calling the value of a property: [obj.prop()] where [prop] evaluates to
    a [bool].  A [bool] is not callable. *)
Definition call_bool {A} (_ : bool) : outcome A :=
  Raise (TypeError "'bool' object is not callable").

End Py.
Export Py.

(** ** pandas: the operations on data frames the services use

  Numeric cells are binary64 floats, a missing value is NaN; text cells are
  strings that [float()] rejects (a snapshot keeps its numbers in numeric
  columns).  Reductions over a column that holds text raise. *)

Module Pd.

Inductive cell :=
| Num (x : float)
| Str (s : string).

Definition NA : cell := Num nan.

(** A row maps column labels to cells; the rows of a frame bind the
    columns of the frame. *)
Abbreviation Row := (gmap string cell).

Record DataFrame := {
  columns : list string;
  rows : list Row;
}.

Definition empty_frame : DataFrame := {| columns := []; rows := [] |}.

(** [pd.isna(value)] *)
Definition isna (c : cell) : bool :=
  match c with
  | Num x => is_nan x
  | Str _ => false
  end.

(** [row.get(col, dflt)] *)
Definition row_get (r : Row) (col : string) (dflt : cell) : cell :=
  default dflt (r !! col).

(** [col in df.columns] *)
Definition has_column (df : DataFrame) (col : string) : bool :=
  bool_decide (col ∈ columns df).

(** [df[col]]: [KeyError] when the column is absent. *)
Definition getitem (df : DataFrame) (col : string) : outcome (list cell) :=
  if has_column df col
  then Return ((λ r, row_get r col NA) <$> rows df)
  else Raise (KeyError col).

(** Elementwise [==]: NaN differs from everything, itself included. *)
Definition cell_eq (a b : cell) : bool :=
  match a, b with
  | Num x, Num y => (x =? y)%float
  | Str s, Str t => String.eqb s t
  | _, _ => false
  end.

(** [df[df[col] == v]] *)
Definition select_eq (df : DataFrame) (col : string) (v : cell) : outcome DataFrame :=
  _ ← getitem df col;
  mret {| columns := columns df;
          rows := filter (λ r, cell_eq (row_get r col NA) v) (rows df) |}.

(** [df.iloc[0]] *)
Definition iloc0 (df : DataFrame) : outcome Row :=
  match rows df with
  | r :: _ => Return r
  | [] => Raise (IndexError "single positional indexer is out-of-bounds")
  end.

(** [len(df)] *)
Definition len (df : DataFrame) : nat := length (rows df).

(** [series.unique()]: first occurrences, in order; missing values count
    as one value. *)
Definition cell_same (a b : cell) : bool :=
  cell_eq a b || (isna a && isna b).

Definition unique (l : list cell) : list cell :=
  foldl (λ seen c, if existsb (cell_same c) seen then seen else seen ++ [c]) [] l.

(** [series.nunique()]: distinct values, missing ones dropped. *)
Definition nunique (l : list cell) : nat :=
  length (filter (λ c, negb (isna c)) (unique l)).

Definition numeric (c : cell) : outcome float :=
  match c with
  | Num x => Return x
  | Str _ => Raise (TypeError "unsupported operand type(s) for +: 'float' and 'str'")
  end.

(** [series.sum()]: missing values are skipped; the empty sum is 0. *)
Definition nansum (l : list float) : float :=
  foldl (λ acc x, if is_nan x then acc else (acc + x)%float) 0%float l.

Definition series_sum (l : list cell) : outcome float :=
  nansum <$> mapM numeric l.

(** [series.fillna(0)] *)
Definition fillna0 (c : cell) : cell :=
  if isna c then Num 0 else c.

(** [a * b], elementwise over two columns of one frame. *)
Definition cell_mul (a b : cell) : outcome float :=
  match a, b with
  | Num x, Num y => Return (x * y)%float
  | _, _ => Raise (TypeError "can't multiply sequence by non-int of type 'float'")
  end.

Definition series_mul (l1 l2 : list cell) : outcome (list cell) :=
  mapM (λ ab, Num <$> cell_mul ab.1 ab.2) (zip l1 l2).

(** [float(value)] *)
Definition to_float (c : cell) : outcome float :=
  match c with
  | Num x => Return x
  | Str s => Raise (ValueError ("could not convert string to float: '" +:+ s +:+ "'"))
  end.

(** [sorted(values)]: text by code point, numbers by [<]; comparing text
    with a number raises [TypeError]. *)
Definition is_str (c : cell) : bool := if c is Str _ then true else false.
Definition is_num (c : cell) : bool := if c is Num _ then true else false.
Definition the_str (c : cell) : string := if c is Str s then s else EmptyString.
Definition the_num (c : cell) : float := if c is Num x then x else nan.

Definition str_le (s t : string) : Prop := String.leb s t.
Definition float_le (x y : float) : Prop := (x <=? y)%float.

Definition sorted (l : list cell) : outcome (list cell) :=
  if forallb is_str l then
    Return (Str <$> merge_sort str_le (the_str <$> l))
  else if forallb is_num l then
    Return (Num <$> merge_sort float_le (the_num <$> l))
  else Raise (TypeError "'<' not supported between instances of 'str' and 'float'").

End Pd.
Export Pd.

(** ** billing/models_calculation.py *)

Module Models.

(** [STATUS_CHOICES] *)
Inductive Status := processing | completed | failed | updated.

#[global] Instance Status_eq_dec : EqDecision Status.
Proof. solve_decision. Defined.

(** [CalculationRun]: the columns the services read or write.  [created_at]
    and [updated_at] are instants on one clock. *)
Record CalculationRun := {
  run_id : string;
  created_at : Z;
  updated_at : Z;
  period_string : string;
  status : Status;
  total_projects : nat;
  total_employees : nat;
  total_budget : float;
  total_adjusted_cost : float;
  total_variance : float;
  data_directory : string;
  is_archived : bool;
}.

(** The table of runs, in the order the database returns its rows.
    [run_id] is a unique column. *)
Abbreviation Registry := (list CalculationRun).

(** What lies under [MEDIA_ROOT]: directories, parquet files that load as a
    data frame, and files that do not parse. *)
Inductive node :=
| Directory
| Parquet (df : DataFrame)
| Unreadable.

Abbreviation FileSystem := (gmap string node).

(** [django.conf.settings] *)
Record Settings := {
  MEDIA_ROOT : string;
  DEBUG : bool;
}.

(** [Path / name] *)
Definition joinpath (dir name : string) : string := dir +:+ "/" +:+ name.

(** [path.exists()] *)
Definition path_exists (fs : FileSystem) (p : string) : bool :=
  bool_decide (is_Some (fs !! p)).

(** [pd.read_parquet(path)] *)
Definition read_parquet (fs : FileSystem) (path : option string) : outcome DataFrame :=
  match path with
  | None => Raise (TypeError "argument of type 'NoneType' is not iterable")
  | Some p =>
      match fs !! p with
      | Some (Parquet df) => Return df
      | Some _ => Raise (ArrowInvalid p)
      | None => Raise (FileNotFoundError p)
      end
  end.

Section run_methods.
Context (settings : Settings) (fs : FileSystem).

(** [CalculationRun.data_path] *)
Definition data_path (self : CalculationRun) : string :=
  joinpath (MEDIA_ROOT settings) (data_directory self).

(** [CalculationRun.is_data_available] *)
Definition is_data_available (self : CalculationRun) : bool :=
  let data_dir := data_path self in
  path_exists fs data_dir &&
  path_exists fs (joinpath data_dir "result_initial.parquet") &&
  path_exists fs (joinpath data_dir "employee_summary_initial.parquet").

(** [CalculationRun.has_updates] *)
Definition has_updates (self : CalculationRun) : bool :=
  let data_dir := data_path self in
  path_exists fs (joinpath data_dir "result_updated.parquet").

(** [CalculationRun.get_latest_parquet] *)
Definition get_latest_parquet (self : CalculationRun) (base_name : string) : option string :=
  let data_dir := data_path self in
  let updated_file := joinpath data_dir (base_name +:+ "_updated.parquet") in
  let initial_file := joinpath data_dir (base_name +:+ "_initial.parquet") in
  if path_exists fs updated_file then Some updated_file
  else if path_exists fs initial_file then Some initial_file
  else None.

Record Summary := {
  s_projects : nat;
  s_employees : nat;
  s_budget : float;
  s_adjusted_cost : float;
  s_variance : float;
}.

(** [CalculationRun.load_summary_data]: the body of its [try]. *)
Definition load_summary_body (self : CalculationRun) : outcome (option Summary) :=
  let result_file := get_latest_parquet self "result" in
  let employee_file := get_latest_parquet self "employee_summary" in
  if bool_decide (is_Some result_file) && bool_decide (is_Some employee_file) then
    result_df ← read_parquet fs result_file;
    employee_df ← read_parquet fs employee_file;
    noms ← getitem employee_df "Nom";
    budget ← getitem result_df "Estimees" ≫= series_sum;
    adjusted_cost ← getitem result_df "Adjusted Cost" ≫= series_sum;
    variance ← getitem result_df "Ecart" ≫= series_sum;
    mret (Some {| s_projects := len result_df;
                  s_employees := nunique noms;
                  s_budget := budget;
                  s_adjusted_cost := adjusted_cost;
                  s_variance := variance |})
  else mret None.

(** [CalculationRun.load_summary_data]: any exception is printed and the
    method returns [None]. *)
Definition load_summary_data (self : CalculationRun) : option Summary :=
  match load_summary_body self with
  | Return s => s
  | Raise _ => None
  end.

(** [CalculationRun.update_summary_cache]: the row after the call. *)
Definition update_summary_cache (self : CalculationRun) : CalculationRun :=
  match load_summary_data self with
  | Some summary =>
      {| run_id := run_id self;
         created_at := created_at self;
         updated_at := updated_at self;
         period_string := period_string self;
         status := status self;
         total_projects := s_projects summary;
         total_employees := s_employees summary;
         total_budget := s_budget summary;
         total_adjusted_cost := s_adjusted_cost summary;
         total_variance := s_variance summary;
         data_directory := data_directory self;
         is_archived := is_archived self |}
  | None => self
  end.

End run_methods.

(** [UserDashboardPreference]: one row per [user_identifier]
    ([unique_together]); [preferred_run] is a nullable foreign key, held
    here as the [run_id] of the run it points to. *)
Record UserDashboardPreference := {
  preferred_run : option string;
}.

Abbreviation Preferences := (gmap string UserDashboardPreference).

(** [CalculationRun.objects.get(run_id=...)]: [run_id] is unique, so at
    most one row matches. *)
Definition runs_get (reg : Registry) (P : CalculationRun → bool) : outcome CalculationRun :=
  match find P reg with
  | Some r => Return r
  | None => Raise DoesNotExist
  end.

(** [UserDashboardPreference.objects.get(user_identifier=...)] *)
Definition prefs_get (prefs : Preferences) (user_id : string) : outcome UserDashboardPreference :=
  match prefs !! user_id with
  | Some p => Return p
  | None => Raise DoesNotExist
  end.

(** [prefs.preferred_run]: the run the foreign key points to, [None] when
    the key is null. *)
Definition follow_preferred_run (reg : Registry) (p : UserDashboardPreference) : option CalculationRun :=
  id ← preferred_run p;
  find (λ r, String.eqb (run_id r) id) reg.

(** [get_or_create(user_identifier=user_id, defaults={'preferred_run': run})]
    followed by [if not created: prefs.preferred_run = run; prefs.save()]. *)
Definition prefs_set (prefs : Preferences) (user_id : string) (run : CalculationRun) : Preferences :=
  <[user_id := {| preferred_run := Some (run_id run) |}]> prefs.

(** [queryset.order_by('-created_at')], also the model's default ordering
    ([Meta.ordering]). *)
Definition newer_first (a b : CalculationRun) : Prop := (created_at b ≤ created_at a)%Z.

#[global] Instance newer_first_dec : RelDecision newer_first.
Proof. intros a b. unfold newer_first. apply _. Defined.

Definition order_by_created_at_desc (q : list CalculationRun) : list CalculationRun :=
  merge_sort newer_first q.

(** [queryset.first()] on a queryset that carries an ordering. *)
Definition first (q : list CalculationRun) : option CalculationRun := head q.

End Models.
Export Models.

(** ** billing/services/data_access.py *)

Module DataAccess.

(** [request.META], the two headers the service reads. *)
Record Request := {
  HTTP_X_FORWARDED_FOR : option string;
  REMOTE_ADDR : option string;
}.

Definition comma : Ascii.ascii := Ascii.ascii_of_nat 44.

(** [s.split(',')[0]] *)
Fixpoint before_comma (s : string) : string :=
  match s with
  | EmptyString => EmptyString
  | String c s' => if Ascii.eqb c comma then EmptyString else String c (before_comma s')
  end.

(** [DataAccessService.get_user_identifier] *)
Definition get_user_identifier (request : Request) : string :=
  let ip :=
    match HTTP_X_FORWARDED_FOR request with
    | Some x_forwarded_for =>
        if nonempty x_forwarded_for then Some (before_comma x_forwarded_for)
        else REMOTE_ADDR request
    | None => REMOTE_ADDR request
    end in
  match ip with
  | Some ip => if nonempty ip then ip else "unknown"
  | None => "unknown"
  end.

(** [filter(status__in=['completed', 'updated'], is_archived=False)] *)
Definition successful (r : CalculationRun) : bool :=
  bool_decide (status r ∈ [completed; updated]) && negb (is_archived r).

(** The result of [load_dashboard_data]. *)
Record RunInfo := {
  ri_run_id : string;
  ri_period : string;
  ri_created_at : Z;
  ri_status : Status;
  ri_has_updates : bool;
}.

Record OverallKpis := {
  o_nbEmployes : nat;
  o_totalBudgetEstime : float;
  o_totalAdjustedCost : float;
  o_totalEcart : float;
  o_totalProjects : nat;
  o_pctAjustement : float;
}.

Record ProjectKpis := {
  nbEmployes : nat;
  totalBudgetEstime : float;
  totalAdjustedCost : float;
  totalEcart : float;
  pctAjustement : float;
  heuresReelles : float;
  heuresAjustees : float;
  heuresRetirees : float;
}.

Record Employee := {
  e_ID : cell;
  e_Nom : cell;
  e_Grade : cell;
  e_Total_Heures : float;
  e_Adjusted_Hours : float;
  e_Rate : float;
  e_Total_Cost : float;
  e_Adjusted_Cost : float;
  e_Heures_Retirees : float;
}.

Record ProjectData := {
  kpis : ProjectKpis;
  employee_data : list Employee;
}.

Record TableRow := {
  Libelle_projet : cell;
  Total_Heures : float;
  Adjusted_Hours : float;
  Adjusted_Cost : float;
  Heures_Retirees : float;
  Estimees : float;
  Ecart : float;
  Total : float;
}.

Record Dashboard := {
  run_info : RunInfo;
  overall_kpis : OverallKpis;
  projects_list : list cell;
  projects_data : list (cell * ProjectData);
  table_projets : list TableRow;
  raw_dataframes : option (DataFrame * DataFrame * DataFrame);
}.

(** The dictionary [load_dashboard_data] returns: with
    ['data_available': True] and the dashboard, or with
    ['data_available': False] and ['error']. *)
Inductive DashboardData :=
| Available (d : Dashboard)
| Unavailable (error : string).

Definition data_available (d : DashboardData) : bool :=
  if d is Available _ then true else false.

(** [safe_float], the helper defined inside the project loop. *)
Definition safe_float (value : cell) (dflt : float) : float :=
  if isna value then dflt
  else match to_float value with
       | Return x => x
       | Raise _ => dflt
       end.

(** [DataAccessService._get_project_employees] *)
Definition _get_project_employees (adjusted_df : DataFrame) (projet_name : cell)
  : outcome (list Employee) :=
  project_data ← select_eq adjusted_df "Libelle projet" projet_name;
  mapM (λ row : Row,
    total_heures ← to_float (row_get row "Total Heures" (Num 0));
    adjusted_hours ← to_float (row_get row "Adjusted Hours" (Num 0));
    rate ← to_float (row_get row "Rate" (Num 0));
    total_cost ← to_float (row_get row "Total" (Num 0));
    adjusted_cost ← to_float (row_get row "Adjusted Cost" (Num 0));
    heures_retirees ← to_float (row_get row "Heures Retirées" (Num 0));
    mret {| e_ID := row_get row "ID" (Str EmptyString);
            e_Nom := row_get row "Nom" (Str EmptyString);
            e_Grade := row_get row "Grade" (Str EmptyString);
            e_Total_Heures := total_heures;
            e_Adjusted_Hours := adjusted_hours;
            e_Rate := rate;
            e_Total_Cost := total_cost;
            e_Adjusted_Cost := adjusted_cost;
            e_Heures_Retirees := heures_retirees |}) (rows project_data).

(** [0.8] as the binary64 value Python reads it as. *)
Definition f0_8 : float := 0x1.999999999999ap-1%float.

(** Lines 157-186 of [load_dashboard_data]: "Calculate Total Cost (Real
    Hours * Rate) for this project".  The variable [project_total_cost]
    starts at [0.0] and passes through three [if] statements; each
    definition below is one of them, from the value the variable has before
    the statement to the value it has after. *)

(** Lines 160-166: [if 'Total' in columns and len(...) > 0: ...] *)
Definition total_column_step (project_employee_data : DataFrame) (cost : float) : outcome float :=
  if has_column project_employee_data "Total" && bool_decide (0 < len project_employee_data)
  then
    total_sum ← getitem project_employee_data "Total" ≫= series_sum;
    if negb (is_nan total_sum) && gt0 total_sum then mret total_sum else mret cost
  else mret cost.

(** Lines 168-175: [if project_total_cost == 0.0 and 'Rate' in columns and
    'Total Heures' in columns: ...] *)
Definition manual_calc_step (project_employee_data : DataFrame) (cost : float) : outcome float :=
  if (cost =? 0)%float && has_column project_employee_data "Rate"
     && has_column project_employee_data "Total Heures"
  then
    rate ← getitem project_employee_data "Rate";
    heures ← getitem project_employee_data "Total Heures";
    manual_calc ← series_mul (fillna0 <$> rate) (fillna0 <$> heures) ≫= series_sum;
    if negb (is_nan manual_calc) && gt0 manual_calc then mret manual_calc else mret cost
  else mret cost.

(** Lines 177-186: [if project_total_cost == 0.0: ...] *)
Definition estimate_step (heures_reelles adjusted_cost heures_ajustees budget_estime : float)
    (cost : float) : outcome float :=
  if (cost =? 0)%float then
    if gt0 heures_reelles then
      estimated_rate ← (if gt0 heures_ajustees then truediv adjusted_cost heures_ajustees
                        else mret 500%float);
      mret (heures_reelles * estimated_rate)%float
    else mret (budget_estime * f0_8)%float
  else mret cost.

Definition project_total_cost (project_employee_data : DataFrame)
    (heures_reelles adjusted_cost heures_ajustees budget_estime : float) : outcome float :=
  cost ← total_column_step project_employee_data 0%float;
  cost ← manual_calc_step project_employee_data cost;
  estimate_step heures_reelles adjusted_cost heures_ajustees budget_estime cost.

(** [(ecart / budget) * 100 if budget else 0] *)
Definition pct (ecart budget : float) : outcome float :=
  if truthy budget then q ← truediv ecart budget; mret (q * 100)%float
  else mret 0%float.

(** The body of the loop [for projet_name in projects_list]: the entry it
    stores in [projects_data] and the row it appends to [table_projets]. *)
Definition project_entry (result_df employee_summary_df adjusted_df : DataFrame)
    (projet_name : cell) : outcome (cell * ProjectData * TableRow) :=
  project_result_data ← select_eq result_df "Libelle projet" projet_name ≫= iloc0;
  project_employee_data ← select_eq employee_summary_df "Libelle projet" projet_name;
  nb_employes_project ← nunique <$> getitem project_employee_data "Nom";
  let budget_estime := safe_float (row_get project_result_data "Estimees" (Num 0)) 0 in
  let adjusted_cost := safe_float (row_get project_result_data "Adjusted Cost" (Num 0)) 0 in
  let ecart := safe_float (row_get project_result_data "Ecart" (Num 0)) 0 in
  let heures_reelles := safe_float (row_get project_result_data "Total Heures" (Num 0)) 0 in
  let heures_ajustees := safe_float (row_get project_result_data "Adjusted Hours" (Num 0)) 0 in
  let heures_retirees := safe_float (row_get project_result_data "Heures Retirées" (Num 0)) 0 in
  pct_ajustement ← pct ecart budget_estime;
  employees ← _get_project_employees adjusted_df projet_name;
  total_cost ← project_total_cost project_employee_data
                  heures_reelles adjusted_cost heures_ajustees budget_estime;
  mret (projet_name,
        {| kpis := {| nbEmployes := nb_employes_project;
                      totalBudgetEstime := budget_estime;
                      totalAdjustedCost := adjusted_cost;
                      totalEcart := ecart;
                      pctAjustement := pct_ajustement;
                      heuresReelles := heures_reelles;
                      heuresAjustees := heures_ajustees;
                      heuresRetirees := heures_retirees |};
           employee_data := employees |},
        {| Libelle_projet := projet_name;
           Total_Heures := heures_reelles;
           Adjusted_Hours := heures_ajustees;
           Adjusted_Cost := adjusted_cost;
           Heures_Retirees := heures_retirees;
           Estimees := budget_estime;
           Ecart := ecart;
           Total := safe_float (Num total_cost) 0 |}).

Section service.
Context (settings : Settings) (fs : FileSystem) (reg : Registry).

(** [DataAccessService.get_available_runs] *)
Definition get_available_runs : list CalculationRun :=
  order_by_created_at_desc (filter successful reg).

(** [DataAccessService.get_latest_run]: no [order_by], so [first()] takes
    the model's [Meta.ordering], ['-created_at']. *)
Definition get_latest_run : option CalculationRun :=
  first (order_by_created_at_desc (filter successful reg)).

(** [DataAccessService.get_preferred_run] *)
Definition get_preferred_run (prefs : Preferences) (request : Request)
  : outcome (option CalculationRun) :=
  let user_id := get_user_identifier request in
  returned ← try_except_DoesNotExist
    (p ← prefs_get prefs user_id;
     match follow_preferred_run reg p with
     | Some run => if is_data_available settings fs run then mret (Some run) else mret None
     | None => mret None
     end)
    (mret None);
  match returned with
  | Some run => mret (Some run)
  | None => mret get_latest_run
  end.

(** [DataAccessService.set_preferred_run]: the value returned and the
    preference table after the call. *)
Definition set_preferred_run (prefs : Preferences) (request : Request) (id : string)
  : outcome (bool * Preferences) :=
  let user_id := get_user_identifier request in
  try_except_DoesNotExist
    (run ← runs_get reg (λ r, String.eqb (run_id r) id);
     mret (true, prefs_set prefs user_id run))
    (mret (false, prefs)).

(** [load_dashboard_data]: the body of its [try]. *)
Definition load_dashboard_body (run : CalculationRun) : outcome DashboardData :=
  result_df ← read_parquet fs (get_latest_parquet settings fs run "result");
  employee_summary_df ← read_parquet fs (get_latest_parquet settings fs run "employee_summary");
  adjusted_df ← read_parquet fs (get_latest_parquet settings fs run "adjusted");
  projects ← (unique <$> getitem result_df "Libelle projet") ≫= sorted;
  nb_employes ← nunique <$> getitem employee_summary_df "Nom";
  total_budget_estime ← getitem result_df "Estimees" ≫= series_sum;
  total_adjusted_cost ← getitem result_df "Adjusted Cost" ≫= series_sum;
  total_ecart ← getitem result_df "Ecart" ≫= series_sum;
  pct_ajustement ← pct total_ecart total_budget_estime;
  entries ← mapM (project_entry result_df employee_summary_df adjusted_df) projects;
  mret (Available
    {| run_info := {| ri_run_id := run_id run;
                      ri_period := period_string run;
                      ri_created_at := created_at run;
                      ri_status := status run;
                      ri_has_updates := has_updates settings fs run |};
       overall_kpis := {| o_nbEmployes := nb_employes;
                          o_totalBudgetEstime := total_budget_estime;
                          o_totalAdjustedCost := total_adjusted_cost;
                          o_totalEcart := total_ecart;
                          o_totalProjects := length projects;
                          o_pctAjustement := pct_ajustement |};
       projects_list := projects;
       projects_data := (λ e, e.1) <$> entries;
       table_projets := (λ e, e.2) <$> entries;
       raw_dataframes := if DEBUG settings
                         then Some (result_df, employee_summary_df, adjusted_df)
                         else None |}).

(** [DataAccessService.load_dashboard_data] *)
Definition load_dashboard_data (run : option CalculationRun) : outcome DashboardData :=
  match run with
  | None => Return (Unavailable "No data available")
  | Some run =>
      if negb (is_data_available settings fs run)
      then Return (Unavailable "No data available")
      else try_except (load_dashboard_body run)
             (λ e, Return (Unavailable ("Error loading data: " +:+ str e)))
  end.

(** [get_dashboard_context], lines 255-261: "Get the calculation run to
    use". *)
Definition context_run (prefs : Preferences) (request : Request) (id : option string)
  : outcome (option CalculationRun) :=
  match id with
  | Some id =>
      if nonempty id
      then try_except_DoesNotExist
             (Some <$> runs_get reg (λ r, String.eqb (run_id r) id))
             (mret None)
      else get_preferred_run prefs request
  | None => get_preferred_run prefs request
  end.

Record Context := {
  dashboard_data : DashboardData;
  available_runs : list CalculationRun;
  current_run : option CalculationRun;
}.

(** [DataAccessService.get_dashboard_context] *)
Definition get_dashboard_context (prefs : Preferences) (request : Request) (id : option string)
  : outcome Context :=
  run ← context_run prefs request id;
  data ← load_dashboard_data run;
  mret {| dashboard_data := data;
          available_runs := get_available_runs;
          current_run := run |}.

End service.

End DataAccess.

(** ** billing/services/data_access_service.py *)

Module DataAccessService.

(** The attributes [__init__] stores. *)
Record Self := {
  user_ip : string;
  user_identifier : string;
}.

Definition _cache_prefix (self : Self) : string :=
  "calc_data_" +:+ user_ip self +:+ "_" +:+ user_identifier self.

Record RunInfo := {
  ri_run_id : string;
  ri_created_at : Z;
  ri_updated_at : Z;
  ri_status : Status;
}.

Definition run_info_of (run : CalculationRun) : RunInfo :=
  {| ri_run_id := run_id run;
     ri_created_at := created_at run;
     ri_updated_at := updated_at run;
     ri_status := status run |}.

Section service.

(** [_compute_kpis] catches every exception and returns the dictionary it
    has built; what it puts there is a parameter of this section. *)
Context {Kpis : Type} (_compute_kpis : DataFrame → DataFrame → Kpis).

(** The dictionary [get_calculation_data] returns.  An absent ['error'] key
    is [None]; the empty dictionaries of the error results are [None]. *)
Record CalculationData := {
  error : option string;
  run_info : option RunInfo;
  projects_data : DataFrame;
  employees_data : DataFrame;
  summary_stats : option Summary;
  kpis : option Kpis;
}.

(** [django.core.cache.cache]: each entry with the instant it expires. *)
Abbreviation Cache := (gmap string (CalculationData * Z)).

(** [cache.get(key)] at instant [now] *)
Definition cache_get (now : Z) (cache : Cache) (key : string) : option CalculationData :=
  match cache !! key with
  | Some (value, expires) => if bool_decide (now < expires)%Z then Some value else None
  | None => None
  end.

(** [cache.set(key, value, timeout)] at instant [now] *)
Definition cache_set (now : Z) (cache : Cache) (key : string) (value : CalculationData)
    (timeout : Z) : Cache :=
  <[key := (value, (now + timeout)%Z)]> cache.

Context (settings : Settings) (fs : FileSystem) (reg : Registry) (self : Self).

(** [DataAccessService.get_available_runs] *)
Definition get_available_runs (include_running : bool) : list CalculationRun :=
  let queryset := reg in
  let queryset :=
    if negb include_running
    then filter (λ r, bool_decide (status r = completed)) queryset
    else queryset in
  order_by_created_at_desc queryset.

(** [DataAccessService.get_latest_completed_run] *)
Definition get_latest_completed_run : option CalculationRun :=
  first (order_by_created_at_desc (filter (λ r, bool_decide (status r = completed)) reg)).

(** [DataAccessService.get_user_preferred_run] *)
Definition get_user_preferred_run (prefs : Preferences) : outcome (option CalculationRun) :=
  try_except_DoesNotExist
    (preference ← prefs_get prefs (user_ip self);
     mret (follow_preferred_run reg preference))
    (mret None).

(** [DataAccessService._invalidate_cache]: the cache after the call.  The
    body is [pass]. *)
Definition _invalidate_cache (cache : Cache) : Cache := cache.

(** [DataAccessService.set_user_preferred_run]: the preference table and
    the cache after the call. *)
Definition set_user_preferred_run (prefs : Preferences) (cache : Cache) (run : CalculationRun)
  : Preferences * Cache :=
  (prefs_set prefs (user_ip self) run, _invalidate_cache cache).

(** [get_current_run], lines 118-123: "Fall back to latest completed run".
    [is_data_available] is a property of the model, and the method calls
    its value: [latest_run.is_data_available()]. *)
Definition latest_completed_step : outcome (option CalculationRun) :=
  let latest_run := get_latest_completed_run in
  use_latest ←
    match latest_run with
    | Some run => call_bool (is_data_available settings fs run)
    | None => mret false
    end;
  if use_latest : bool then mret latest_run else mret None.

(** [DataAccessService.get_current_run] *)
Definition get_current_run (prefs : Preferences) : outcome (option CalculationRun) :=
  preferred_run ← get_user_preferred_run prefs;
  use_preferred ←
    match preferred_run with
    | Some run =>
        if bool_decide (status run = completed)
        then call_bool (is_data_available settings fs run)
        else mret false
    | None => mret false
    end;
  if use_preferred : bool then mret preferred_run
  else latest_completed_step.

(** [get_calculation_data], lines 141-149: "Determine which run to use". *)
Definition requested_run (prefs : Preferences) (id : option string)
  : outcome (option CalculationRun) :=
  match id with
  | Some id =>
      if nonempty id
      then try_except_DoesNotExist
             (Some <$> runs_get reg
                (λ r, String.eqb (run_id r) id && bool_decide (status r = completed)))
             (get_current_run prefs)
      else get_current_run prefs
  | None => get_current_run prefs
  end.

Definition no_calculation_data : CalculationData :=
  {| error := Some "No calculation data available";
     run_info := None;
     projects_data := empty_frame;
     employees_data := empty_frame;
     summary_stats := None;
     kpis := None |}.

(** [get_calculation_data]: the body of its [try], up to the value it
    stores in the cache. *)
Definition load_calculation_body (run : CalculationRun) : outcome CalculationData :=
  let projects_file := get_latest_parquet settings fs run "result" in
  let employees_file := get_latest_parquet settings fs run "employee_summary" in
  if negb (bool_decide (is_Some projects_file)) || negb (bool_decide (is_Some employees_file))
  then Raise (FileNotFoundError "Required parquet files not found")
  else
    projects_df ← read_parquet fs projects_file;
    employees_df ← read_parquet fs employees_file;
    mret {| error := None;
            run_info := Some (run_info_of run);
            projects_data := projects_df;
            employees_data := employees_df;
            summary_stats := load_summary_data settings fs run;
            kpis := Some (_compute_kpis projects_df employees_df) |}.

(** [DataAccessService.get_calculation_data] at instant [now]: the value
    returned and the cache after the call. *)
Definition get_calculation_data (now : Z) (prefs : Preferences) (cache : Cache)
    (id : option string) (force_refresh : bool) : outcome (CalculationData * Cache) :=
  run ← requested_run prefs id;
  match run with
  | None => mret (no_calculation_data, cache)
  | Some run =>
      let cache_key := _cache_prefix self +:+ "_data_" +:+ run_id run in
      let cached_data := if negb force_refresh then cache_get now cache cache_key else None in
      match cached_data with
      | Some cached_data => mret (cached_data, cache)
      | None =>
          match load_calculation_body run with
          | Return result => mret (result, cache_set now cache cache_key result 3600)
          | Raise e =>
              mret ({| error := Some (str e);
                       run_info := Some (run_info_of run);
                       projects_data := empty_frame;
                       employees_data := empty_frame;
                       summary_stats := None;
                       kpis := None |}, cache)
          end
      end
  end.

(** [save(update_fields=...)]: the row with this [run_id] is replaced. *)
Definition save (run : CalculationRun) : Registry :=
  (λ r, if String.eqb (run_id r) (run_id run) then run else r) <$> reg.

Definition with_status (run : CalculationRun) (s : Status) : CalculationRun :=
  {| run_id := run_id run;
     created_at := created_at run;
     updated_at := updated_at run;
     period_string := period_string run;
     status := s;
     total_projects := total_projects run;
     total_employees := total_employees run;
     total_budget := total_budget run;
     total_adjusted_cost := total_adjusted_cost run;
     total_variance := total_variance run;
     data_directory := data_directory run;
     is_archived := is_archived run |}.

(** [DataAccessService.complete_calculation_run]: the value returned, the
    table of runs and the cache after the call. *)
Definition complete_calculation_run (cache : Cache) (id : string) : bool * Registry * Cache :=
  match runs_get reg (λ r, String.eqb (run_id r) id) with
  | Return run =>
      let run := update_summary_cache settings fs (with_status run completed) in
      (true, save run, _invalidate_cache cache)
  | Raise _ => (false, reg, cache)
  end.

End service.

End DataAccessService.

(** ** The realized-cost chain, as the specification words it

    Four named strategies, tried in order; the first that applies gives
    the total realized cost of the project. *)

Module FallbackChain.
Import DataAccess.

(** (a) the sum of the explicit total-cost column of the employee slice,
    when the column is present and the sum is strictly positive *)
Definition explicit_total (slice : DataFrame) : outcome (option float) :=
  if has_column slice "Total" then
    total ← getitem slice "Total" ≫= series_sum;
    mret (if gt0 total then Some total else None)
  else mret None.

(** (b) the sum over the employee rows of hourly rate times realized
    hours, when both columns are present and the sum is strictly positive *)
Definition rate_times_hours (slice : DataFrame) : outcome (option float) :=
  if has_column slice "Rate" && has_column slice "Total Heures" then
    rate ← getitem slice "Rate";
    heures ← getitem slice "Total Heures";
    product_sum ← series_mul (fillna0 <$> rate) (fillna0 <$> heures) ≫= series_sum;
    mret (if gt0 product_sum then Some product_sum else None)
  else mret None.

Definition default_rate : float := 500%float.

(** (c) realized hours times an effective rate, when realized hours are
    strictly positive *)
Definition effective_rate (adjusted_cost adjusted_hours : float) : float :=
  if gt0 adjusted_hours then (adjusted_cost / adjusted_hours)%float else default_rate.

Definition hours_times_effective_rate (realized_hours adjusted_cost adjusted_hours : float)
  : option float :=
  if gt0 realized_hours
  then Some (realized_hours * effective_rate adjusted_cost adjusted_hours)%float
  else None.

(** (d) 80% of the estimated budget *)
Definition budget_placeholder (estimated_budget : float) : float :=
  (estimated_budget * f0_8)%float.

Definition realized_cost (slice : DataFrame)
    (realized_hours adjusted_cost adjusted_hours estimated_budget : float) : outcome float :=
  a ← explicit_total slice;
  match a with
  | Some cost => mret cost
  | None =>
      b ← rate_times_hours slice;
      match b with
      | Some cost => mret cost
      | None =>
          match hours_times_effective_rate realized_hours adjusted_cost adjusted_hours with
          | Some cost => mret cost
          | None => mret (budget_placeholder estimated_budget)
          end
      end
  end.

End FallbackChain.

(** ** Sample data: a media directory with four runs *)

Module Sample.
Import DataAccess.

Definition settings : Settings := {| MEDIA_ROOT := "/media"; DEBUG := false |}.

Definition new_run (id : string) (created : Z) (s : Status) (archived : bool) : CalculationRun :=
  {| run_id := id;
     created_at := created;
     updated_at := created;
     period_string := "Janvier 2024";
     status := s;
     total_projects := 0;
     total_employees := 0;
     total_budget := 0;
     total_adjusted_cost := 0;
     total_variance := 0;
     data_directory := "slr_temp_runs/" +:+ id;
     is_archived := archived |}.

Definition run_jan : CalculationRun := new_run "run-jan" 100 completed false.
Definition run_feb : CalculationRun := new_run "run-feb" 200 updated false.
Definition run_mar : CalculationRun := new_run "run-mar" 300 processing false.
Definition run_old : CalculationRun := new_run "run-old" 50 completed true.

Definition registry : Registry := [run_old; run_mar; run_jan; run_feb].

Definition row (cells : list (string * cell)) : Row := list_to_map cells.

(** One project per strategy of the realized-cost chain. *)
Definition result_jan : DataFrame :=
  {| columns := ["Libelle projet"; "Estimees"; "Adjusted Cost"; "Ecart";
                 "Total Heures"; "Adjusted Hours"; "Heures Retirées"];
     rows :=
       [ row [("Libelle projet", Str "Delta"); ("Estimees", Num 1000); ("Adjusted Cost", Num 900);
              ("Ecart", Num (-100)); ("Total Heures", Num 0); ("Adjusted Hours", Num 0);
              ("Heures Retirées", Num 0)];
         row [("Libelle projet", Str "Alpha"); ("Estimees", Num 1000); ("Adjusted Cost", Num 1100);
              ("Ecart", Num 100); ("Total Heures", Num 20); ("Adjusted Hours", Num 18);
              ("Heures Retirées", Num 2)];
         row [("Libelle projet", Str "Gamma"); ("Estimees", Num 4000); ("Adjusted Cost", Num 2400);
              ("Ecart", Num (-1600)); ("Total Heures", Num 8); ("Adjusted Hours", Num 6);
              ("Heures Retirées", Num 2)];
         row [("Libelle projet", Str "Beta"); ("Estimees", Num 2000); ("Adjusted Cost", Num 1800);
              ("Ecart", Num (-200)); ("Total Heures", Num 10); ("Adjusted Hours", Num 9);
              ("Heures Retirées", Num 1)] ] |}.

Definition employees_jan : DataFrame :=
  {| columns := ["Libelle projet"; "Nom"; "Total"; "Rate"; "Total Heures"];
     rows :=
       [ row [("Libelle projet", Str "Alpha"); ("Nom", Str "Ann"); ("Total", Num 700);
              ("Rate", Num 50); ("Total Heures", Num 12)];
         row [("Libelle projet", Str "Alpha"); ("Nom", Str "Bob"); ("Total", Num 500);
              ("Rate", Num 60); ("Total Heures", Num 8)];
         row [("Libelle projet", Str "Beta"); ("Nom", Str "Ann"); ("Total", Num 0);
              ("Rate", Num 50); ("Total Heures", Num 10)];
         row [("Libelle projet", Str "Gamma"); ("Nom", Str "Cid"); ("Total", Num 0);
              ("Rate", NA); ("Total Heures", Num 8)] ] |}.

Definition adjusted_jan : DataFrame :=
  {| columns := ["Libelle projet"; "ID"; "Nom"; "Grade"; "Total Heures"; "Adjusted Hours"; "Rate"];
     rows :=
       [ row [("Libelle projet", Str "Alpha"); ("ID", Str "E1"); ("Nom", Str "Ann");
              ("Grade", Str "Senior"); ("Total Heures", Num 12); ("Adjusted Hours", Num 11);
              ("Rate", Num 50)] ] |}.

(** A result table in which the label "Alpha" occurs twice. *)
Definition result_feb : DataFrame :=
  {| columns := ["Libelle projet"; "Estimees"; "Adjusted Cost"; "Ecart"];
     rows :=
       [ row [("Libelle projet", Str "Alpha"); ("Estimees", Num 1000); ("Adjusted Cost", Num 1100);
              ("Ecart", Num 100)];
         row [("Libelle projet", Str "Beta"); ("Estimees", Num 2000); ("Adjusted Cost", Num 1800);
              ("Ecart", Num (-200))];
         row [("Libelle projet", Str "Alpha"); ("Estimees", Num 500); ("Adjusted Cost", Num 400);
              ("Ecart", Num (-100))] ] |}.

Definition employees_feb : DataFrame :=
  {| columns := ["Libelle projet"; "Nom"];
     rows := [ row [("Libelle projet", Str "Alpha"); ("Nom", Str "Ann")] ] |}.

Definition adjusted_feb : DataFrame :=
  {| columns := ["Libelle projet"; "Nom"]; rows := [] |}.

(** The result table of "run-jan" after a manual adjustment. *)
Definition result_jan_updated : DataFrame :=
  {| columns := ["Libelle projet"; "Estimees"; "Adjusted Cost"; "Ecart"];
     rows :=
       [ row [("Libelle projet", Str "Alpha"); ("Estimees", Num 1000); ("Adjusted Cost", Num 950);
              ("Ecart", Num (-50))] ] |}.

Definition media : FileSystem :=
  list_to_map
    [ ("/media/slr_temp_runs/run-jan", Directory);
      ("/media/slr_temp_runs/run-jan/result_initial.parquet", Parquet result_jan);
      ("/media/slr_temp_runs/run-jan/employee_summary_initial.parquet", Parquet employees_jan);
      ("/media/slr_temp_runs/run-jan/adjusted_initial.parquet", Parquet adjusted_jan);
      ("/media/slr_temp_runs/run-feb", Directory);
      ("/media/slr_temp_runs/run-feb/result_initial.parquet", Parquet result_jan);
      ("/media/slr_temp_runs/run-feb/result_updated.parquet", Parquet result_feb);
      ("/media/slr_temp_runs/run-feb/employee_summary_initial.parquet", Parquet employees_feb);
      ("/media/slr_temp_runs/run-feb/adjusted_initial.parquet", Parquet adjusted_feb);
      ("/media/slr_temp_runs/run-mar", Directory);
      ("/media/slr_temp_runs/run-mar/result_initial.parquet", Parquet result_jan);
      ("/media/slr_temp_runs/run-mar/employee_summary_initial.parquet", Unreadable) ].

(** The same directory once "run-jan" has an adjusted result table. *)
Definition media_adjusted : FileSystem :=
  <["/media/slr_temp_runs/run-jan/result_updated.parquet" := Parquet result_jan_updated]> media.

Definition request : Request :=
  {| HTTP_X_FORWARDED_FOR := None; REMOTE_ADDR := Some "10.0.0.7" |}.

Definition self : DataAccessService.Self :=
  {| DataAccessService.user_ip := "10.0.0.7"; DataAccessService.user_identifier := EmptyString |}.

Definition no_preferences : Preferences := ∅.

Definition prefers (id : string) : Preferences :=
  {[ "10.0.0.7" := {| preferred_run := Some id |} ]}.

(** What [get_calculation_data] computes for "run-jan" from a media
    directory. *)
Definition data_jan {Kpis : Type} (_compute_kpis : DataFrame → DataFrame → Kpis)
    (fs : FileSystem) (result_df : DataFrame) : DataAccessService.CalculationData :=
  {| DataAccessService.error := None;
     DataAccessService.run_info := Some (DataAccessService.run_info_of run_jan);
     DataAccessService.projects_data := result_df;
     DataAccessService.employees_data := employees_jan;
     DataAccessService.summary_stats := load_summary_data settings fs run_jan;
     DataAccessService.kpis := Some (_compute_kpis result_df employees_jan) |}.

Definition cache_key_jan : string :=
  DataAccessService._cache_prefix self +:+ "_data_" +:+ run_id run_jan.

End Sample.

(** ** billing/views_dashboard.py: the comparison dashboard *)

Module ViewsDashboard.
Import DataAccess.



Section views.
Context (settings : Settings) (fs : FileSystem) (reg : Registry).



End views.

End ViewsDashboard.

(** ** billing/services/data_access.py: [LegacyDataMigration] *)

Module LegacyDataMigration.

(** [s] without its prefix [p], when it has that prefix. *)
Fixpoint strip_prefix (p s : string) : option string :=
  match p, s with
  | EmptyString, _ => Some s
  | String a p, String b s => if Ascii.eqb a b then strip_prefix p s else None
  | String _ _, EmptyString => None
  end.

Definition slash : Ascii.ascii := Ascii.ascii_of_nat 47.

Fixpoint has_slash (s : string) : bool :=
  match s with
  | EmptyString => false
  | String c s => Ascii.eqb c slash || has_slash s
  end.

(** The name of [path] as an entry of the directory [dir], when it is
    one: [path] is [dir/name] and [name] holds no separator. *)
Definition child_name (dir path : string) : option string :=
  name ← strip_prefix (dir +:+ "/") path;
  if nonempty name && negb (has_slash name) then Some name else None.

(** [node.is_dir()] *)
Definition is_dir (n : node) : bool := if n is Directory then true else false.

Section migration.

(** [mtime path] is [path.stat().st_mtime] as an instant, [now] the
    instant of the call ([updated_at] is an [auto_now] column). *)
Context (settings : Settings) (fs : FileSystem) (mtime : string → Z) (now : Z).

(** [dir.iterdir()]: the names and nodes of the entries of [dir], in the
    order the file system lists them. *)
Definition iterdir (dir : string) : list (string * node) :=
  omap (λ entry : string * node, name ← child_name dir entry.1; Some (name, entry.2))
       (map_to_list fs).

(** The row [CalculationRun.objects.create(...)] inserts for a legacy
    directory. *)
Definition create (id : string) (created_time : Z) : CalculationRun :=
  {| run_id := id;
     created_at := created_time;
     updated_at := now;
     period_string := "Unknown Period";
     status := completed;
     total_projects := 0;
     total_employees := 0;
     total_budget := 0;
     total_adjusted_cost := 0;
     total_variance := 0;
     data_directory := "slr_temp_runs/" +:+ id;
     is_archived := false |}.

(** The three tests an entry of the directory passes to be migrated, and
    the row the loop then creates for it. *)
Definition kept (runs_dir : string) (existing_run_ids : gset string)
    (entry : string * node) : bool :=
  is_dir entry.2 && negb (bool_decide (entry.1 ∈ existing_run_ids))
  && path_exists fs (joinpath (joinpath runs_dir entry.1) "result_initial.parquet").

Definition created (runs_dir : string) (entry : string * node) : CalculationRun :=
  update_summary_cache settings fs (create entry.1 (mtime (joinpath runs_dir entry.1))).

(** One pass of [for run_dir in runs_dir.iterdir()]: the list
    [migrated_runs] and the table of runs after the pass. *)
Definition migrate_dir (runs_dir : string) (existing_run_ids : gset string)
    (state : list CalculationRun * Registry) (entry : string * node)
  : list CalculationRun * Registry :=
  let '(id, n) := entry in
  let run_dir := joinpath runs_dir id in
  if negb (is_dir n) then state
  else if bool_decide (id ∈ existing_run_ids) then state
  else if negb (path_exists fs (joinpath run_dir "result_initial.parquet")) then state
  else
    let calc_run := update_summary_cache settings fs (create id (mtime run_dir)) in
    (state.1 ++ [calc_run], state.2 ++ [calc_run]).

(** [LegacyDataMigration.migrate_existing_runs]: the list it returns and
    the table of runs after the call. *)
Definition migrate_existing_runs (reg : Registry) : list CalculationRun * Registry :=
  let runs_dir := joinpath (MEDIA_ROOT settings) "slr_temp_runs" in
  if negb (path_exists fs runs_dir) then ([], reg)
  else
    let existing_run_ids : gset string := list_to_set (run_id <$> reg) in
    foldl (migrate_dir runs_dir existing_run_ids) ([], reg) (iterdir runs_dir).

End migration.

End LegacyDataMigration.

(** Sample data for the migration: the media directory with its
    [slr_temp_runs] folder and a stray file in it. *)

Module SampleMigration.

Definition media : FileSystem :=
  <["/media/slr_temp_runs" := Directory]>
    (<["/media/slr_temp_runs/notes.txt" := Unreadable]>
       (<["/media/slr_temp_runs/run-empty" := Directory]> Sample.media)).

Definition mtime (path : string) : Z := 1000 + Z.of_nat (String.length path).

End SampleMigration.

(** * Properties *)

(** ** Floats *)

Lemma eqb_zero_zero : (0 =? 0)%float = true.
Proof. reflexivity. Qed.

Lemma gt0_nonzero x : gt0 x = true → (x =? 0)%float = false.
Proof.
  unfold gt0. rewrite FloatAxioms.ltb_spec, FloatAxioms.eqb_spec.
  change (Prim2SF 0) with (S754_zero false).
  destruct (Prim2SF x) as [s|s| |s m e]; simpl; try discriminate;
    destruct s; simpl; done.
Qed.

Lemma gt0_notnan x : gt0 x = true → is_nan x = false.
Proof.
  unfold gt0, is_nan. rewrite FloatAxioms.ltb_spec, FloatAxioms.eqb_spec.
  change (Prim2SF 0) with (S754_zero false).
  destruct (Prim2SF x) as [s|s| |s m e]; simpl; try discriminate.
  - destruct s; done.
  - destruct s; simpl; try discriminate.
    intros _. unfold SFeqb, SFcompare.
    rewrite Z.compare_refl, Pos.compare_refl. done.
Qed.

(** ** The outcome monad *)

Lemma bind_Return {A B} (m : outcome A) (f : A → outcome B) b :
  m ≫= f = Return b → ∃ a, m = Return a ∧ f a = Return b.
Proof. destruct m as [a|e]; [eauto | discriminate]. Qed.

Lemma mapM_Return {A B} (f : A → outcome B) l ys :
  mapM f l = Return ys → Forall2 (λ x y, f x = Return y) l ys.
Proof.
  revert ys. induction l as [|x l IH]; intros ys; simpl.
  - intros [= <-]. constructor.
  - intros H. apply bind_Return in H as (y & Hy & H).
    apply bind_Return in H as (k & Hk & [= <-]).
    constructor; auto.
Qed.

(** ** The realized-cost chain *)

Section chain.
Import DataAccess FallbackChain.

Lemma getitem_no_rows df col :
  has_column df col = true → len df = 0 → getitem df col = Return [].
Proof.
  unfold getitem, len. intros -> Hlen.
  destruct (rows df); [done | discriminate].
Qed.

Lemma total_column_step_chain slice :
  total_column_step slice 0 = (λ a, default 0%float a) <$> explicit_total slice.
Proof.
  unfold total_column_step, explicit_total.
  destruct (has_column slice "Total") eqn:HT; [|done].
  case_bool_decide as Hlen; simpl.
  - destruct (getitem slice "Total" ≫= series_sum) as [s|e]; [|done].
    simpl. destruct (gt0 s) eqn:Hs.
    + by rewrite (gt0_notnan _ Hs).
    + by rewrite andb_false_r.
  - rewrite getitem_no_rows by (done || lia). done.
Qed.

Lemma explicit_total_positive slice cost :
  explicit_total slice = Return (Some cost) → gt0 cost = true.
Proof.
  unfold explicit_total. destruct (has_column slice "Total"); [|done].
  destruct (getitem slice "Total" ≫= series_sum) as [s|e]; [|done].
  simpl. destruct (gt0 s) eqn:Hs; [by intros [= <-] | by intros [=]].
Qed.

Lemma manual_calc_step_skipped slice cost :
  gt0 cost = true → manual_calc_step slice cost = Return cost.
Proof. intros H. unfold manual_calc_step. by rewrite (gt0_nonzero _ H). Qed.

Lemma manual_calc_step_chain slice :
  manual_calc_step slice 0 = (λ b, default 0%float b) <$> rate_times_hours slice.
Proof.
  unfold manual_calc_step, rate_times_hours. rewrite eqb_zero_zero. simpl.
  destruct (has_column slice "Rate" && has_column slice "Total Heures"); [|done].
  destruct (getitem slice "Rate") as [rate|e]; [|done]. simpl.
  destruct (getitem slice "Total Heures") as [heures|e]; [|done]. simpl.
  destruct (series_mul _ _ ≫= series_sum) as [s|e]; [|done].
  simpl. destruct (gt0 s) eqn:Hs.
  - by rewrite (gt0_notnan _ Hs).
  - by rewrite andb_false_r.
Qed.

Lemma rate_times_hours_positive slice cost :
  rate_times_hours slice = Return (Some cost) → gt0 cost = true.
Proof.
  unfold rate_times_hours.
  destruct (has_column slice "Rate" && has_column slice "Total Heures"); [|done].
  destruct (getitem slice "Rate") as [rate|e]; [|done]. simpl.
  destruct (getitem slice "Total Heures") as [heures|e]; [|done]. simpl.
  destruct (series_mul _ _ ≫= series_sum) as [s|e]; [|done].
  simpl. destruct (gt0 s) eqn:Hs; [by intros [= <-] | by intros [=]].
Qed.

Lemma estimate_step_skipped h ac ah b cost :
  gt0 cost = true → estimate_step h ac ah b cost = Return cost.
Proof. intros H. unfold estimate_step. by rewrite (gt0_nonzero _ H). Qed.

Lemma estimate_step_chain h ac ah b :
  estimate_step h ac ah b 0 =
  Return (default (budget_placeholder b) (hours_times_effective_rate h ac ah)).
Proof.
  unfold estimate_step, hours_times_effective_rate, effective_rate, truediv.
  rewrite eqb_zero_zero. destruct (gt0 h); [|done].
  destruct (gt0 ah) eqn:Hah; [|done].
  by rewrite (gt0_nonzero _ Hah).
Qed.

(** The three [if] statements compute the chain of the four strategies. *)
Lemma project_total_cost_chain slice h ac ah b :
  project_total_cost slice h ac ah b = realized_cost slice h ac ah b.
Proof.
  unfold project_total_cost, realized_cost.
  rewrite total_column_step_chain.
  destruct (explicit_total slice) as [[cost|]|e] eqn:Ha; simpl; [| |done].
  - apply explicit_total_positive in Ha.
    rewrite (manual_calc_step_skipped _ _ Ha). simpl.
    by apply estimate_step_skipped.
  - rewrite manual_calc_step_chain.
    destruct (rate_times_hours slice) as [[cost|]|e] eqn:Hb; simpl; [| |done].
    + apply rate_times_hours_positive in Hb. by apply estimate_step_skipped.
    + rewrite estimate_step_chain.
      by destruct (hours_times_effective_rate h ac ah).
Qed.

End chain.

(** ** [load_dashboard_data]: what an available result was built from *)

Section dashboard.
Import DataAccess FallbackChain.

Lemma project_entry_inv result_df employee_summary_df adjusted_df projet_name name data row :
  project_entry result_df employee_summary_df adjusted_df projet_name = Return (name, data, row) →
  ∃ matching first_row slice cost,
    select_eq result_df "Libelle projet" projet_name = Return matching ∧
    iloc0 matching = Return first_row ∧
    select_eq employee_summary_df "Libelle projet" projet_name = Return slice ∧
    project_total_cost slice (heuresReelles (kpis data)) (totalAdjustedCost (kpis data))
      (heuresAjustees (kpis data)) (totalBudgetEstime (kpis data)) = Return cost ∧
    name = projet_name ∧
    Libelle_projet row = projet_name ∧
    totalBudgetEstime (kpis data) = safe_float (row_get first_row "Estimees" (Num 0)) 0 ∧
    totalAdjustedCost (kpis data) = safe_float (row_get first_row "Adjusted Cost" (Num 0)) 0 ∧
    totalEcart (kpis data) = safe_float (row_get first_row "Ecart" (Num 0)) 0 ∧
    heuresReelles (kpis data) = safe_float (row_get first_row "Total Heures" (Num 0)) 0 ∧
    heuresAjustees (kpis data) = safe_float (row_get first_row "Adjusted Hours" (Num 0)) 0 ∧
    heuresRetirees (kpis data) = safe_float (row_get first_row "Heures Retirées" (Num 0)) 0 ∧
    Total_Heures row = heuresReelles (kpis data) ∧
    Adjusted_Hours row = heuresAjustees (kpis data) ∧
    Adjusted_Cost row = totalAdjustedCost (kpis data) ∧
    Estimees row = totalBudgetEstime (kpis data) ∧
    Total row = safe_float (Num cost) 0.
Proof.
  unfold project_entry. intros H.
  apply bind_Return in H as (first_row & Hfirst & H).
  apply bind_Return in Hfirst as (matching & Hmatching & Hfirst).
  apply bind_Return in H as (slice & Hslice & H).
  apply bind_Return in H as (nb & _ & H).
  apply bind_Return in H as (pct_ajustement & _ & H).
  apply bind_Return in H as (employees & _ & H).
  apply bind_Return in H as (cost & Hcost & H).
  injection H as <- <- <-. simpl.
  exists matching, first_row, slice, cost. repeat split; done.
Qed.

Lemma load_dashboard_data_inv settings fs run d :
  load_dashboard_data settings fs (Some run) = Return (Available d) →
  ∃ result_df employee_summary_df adjusted_df entries,
    read_parquet fs (get_latest_parquet settings fs run "result") = Return result_df ∧
    read_parquet fs (get_latest_parquet settings fs run "employee_summary")
      = Return employee_summary_df ∧
    read_parquet fs (get_latest_parquet settings fs run "adjusted") = Return adjusted_df ∧
    getitem result_df "Estimees" ≫= series_sum = Return (o_totalBudgetEstime (overall_kpis d)) ∧
    getitem result_df "Adjusted Cost" ≫= series_sum
      = Return (o_totalAdjustedCost (overall_kpis d)) ∧
    getitem result_df "Ecart" ≫= series_sum = Return (o_totalEcart (overall_kpis d)) ∧
    Forall2 (λ projet_name entry,
        project_entry result_df employee_summary_df adjusted_df projet_name = Return entry)
      (projects_list d) entries ∧
    projects_data d = (λ e, e.1) <$> entries ∧
    table_projets d = (λ e, e.2) <$> entries.
Proof.
  unfold load_dashboard_data.
  destruct (is_data_available settings fs run); simpl; [|discriminate].
  unfold try_except.
  destruct (load_dashboard_body settings fs run) as [data|e] eqn:H; [|discriminate].
  intros [= ->]. unfold load_dashboard_body in H.
  apply bind_Return in H as (result_df & Hresult & H).
  apply bind_Return in H as (employee_summary_df & Hemployee & H).
  apply bind_Return in H as (adjusted_df & Hadjusted & H).
  apply bind_Return in H as (projects & _ & H).
  apply bind_Return in H as (nb & _ & H).
  apply bind_Return in H as (budget & Hbudget & H).
  apply bind_Return in H as (adjusted & Hcost & H).
  apply bind_Return in H as (ecart & Hecart & H).
  apply bind_Return in H as (pct_ajustement & _ & H).
  apply bind_Return in H as (entries & Hentries & H).
  injection H as <-. simpl.
  exists result_df, employee_summary_df, adjusted_df, entries.
  repeat split; try done. by apply mapM_Return.
Qed.

Lemma getitem_Return df col cells :
  getitem df col = Return cells → cells = (λ r, row_get r col NA) <$> rows df.
Proof. unfold getitem. destruct (has_column df col); [by intros [= <-] | discriminate]. Qed.

Lemma select_eq_Return df col v matching :
  select_eq df col v = Return matching →
  rows matching = filter (λ r, cell_eq (row_get r col NA) v) (rows df).
Proof.
  unfold select_eq. intros H. apply bind_Return in H as (cells & _ & H).
  by injection H as <-.
Qed.

Lemma iloc0_Return df r : iloc0 df = Return r → ∃ others, rows df = r :: others.
Proof. unfold iloc0. destruct (rows df) as [|r' others]; [discriminate|]. intros [= <-]. eauto. Qed.

(** The head of a filtered list is the first element of the list that
    passes the filter. *)
Lemma filter_head_first {A} (P : A → bool) (l : list A) x others :
  filter (λ a, P a) l = x :: others →
  ∃ before after,
    l = before ++ x :: after ∧ Forall (λ a, P a = false) before ∧ P x = true.
Proof.
  induction l as [|a l IH]; [discriminate|].
  rewrite filter_cons. destruct (decide (P a)) as [Ha|Ha].
  - intros [= -> _]. exists [], l. repeat split; [constructor | by apply Is_true_eq_true].
  - intros H. destruct (IH H) as (before & after & -> & Hbefore & Hx).
    exists (a :: before), after. repeat split; [|done].
    constructor; [|done]. by destruct (P a).
Qed.

End dashboard.

(** ** Aggregation: the realized-cost chain and duplicated labels *)

Section aggregation.
Import DataAccess FallbackChain.

(** C1. Whenever [load_dashboard_data] returns an available result, the
    table has one row per project of the aggregation, and the total
    realized cost of each row is the result of the four-step chain
    [realized_cost] evaluated on the project's slice of the employee
    summary and on the project's realized hours, adjusted cost, adjusted
    hours and estimated budget: (a) the positive sum of the 'Total'
    column, else (b) the positive sum of rate times realized hours, else
    (c) realized hours times the effective rate (adjusted cost over
    adjusted hours, or 500) when realized hours are positive, else (d) 0.8
    times the estimated budget.  The value is stored through [safe_float],
    which leaves every number but NaN unchanged. *)
Theorem realized_cost_fallback_chain settings fs run d :
  load_dashboard_data settings fs (Some run) = Return (Available d) →
  ∃ employee_summary_df,
    read_parquet fs (get_latest_parquet settings fs run "employee_summary")
      = Return employee_summary_df ∧
    Libelle_projet <$> table_projets d = projects_list d ∧
    Forall (λ row, ∃ slice cost,
        select_eq employee_summary_df "Libelle projet" (Libelle_projet row) = Return slice ∧
        realized_cost slice (Total_Heures row) (Adjusted_Cost row) (Adjusted_Hours row)
          (Estimees row) = Return cost ∧
        Total row = safe_float (Num cost) 0)
      (table_projets d).
Proof.
  intros H.
  apply load_dashboard_data_inv in H
    as (result_df & employee_summary_df & adjusted_df & entries
        & _ & Hemployee & _ & _ & _ & _ & Hentries & _ & ->).
  exists employee_summary_df. split; [done|].
  induction Hentries as [|projet_name [[name data] row] projects entries Hentry _ [IHl IHr]];
    [by split; constructor|].
  apply project_entry_inv in Hentry
    as (matching & first_row & slice & cost & _ & _ & Hslice & Hcost & _ & Hlabel
        & _ & _ & _ & _ & _ & _ & Hh & Hah & Hac & Hb & Htotal).
  rewrite !fmap_cons. simpl. split.
  - by rewrite Hlabel, IHl.
  - constructor; [|done]. exists slice, cost.
    rewrite Hlabel, Hh, Hah, Hac, Hb, <- project_total_cost_chain. done.
Qed.

Lemma realized_cost_fallback_chain_witness :
  ∃ d, load_dashboard_data Sample.settings Sample.media (Some Sample.run_jan)
       = Return (Available d) ∧
    Total <$> table_projets d = [1200; 500; 800; 3200]%float ∧
    ∃ employee_summary_df,
      read_parquet Sample.media
        (get_latest_parquet Sample.settings Sample.media Sample.run_jan "employee_summary")
        = Return employee_summary_df ∧
      Libelle_projet <$> table_projets d = projects_list d ∧
      Forall (λ row, ∃ slice cost,
          select_eq employee_summary_df "Libelle projet" (Libelle_projet row) = Return slice ∧
          realized_cost slice (Total_Heures row) (Adjusted_Cost row) (Adjusted_Hours row)
            (Estimees row) = Return cost ∧
          Total row = safe_float (Num cost) 0)
        (table_projets d).
Proof.
  eexists. split; [vm_compute; reflexivity|].
  split; [vm_compute; reflexivity|].
  apply (realized_cost_fallback_chain Sample.settings Sample.media Sample.run_jan).
  vm_compute; reflexivity.
Defined.

(** C10. Whenever [load_dashboard_data] returns an available result: the
    overall totals are the sums of the budget, adjusted-cost and variance
    columns over every row of the result table; and the KPIs of each
    project (estimated budget, adjusted cost, variance, realized, adjusted
    and removed hours) are those of the first row of the table that carries
    the project's label, whatever the later rows with that label hold.  On
    a table with a duplicated label the two therefore disagree (see the
    instance below: projects sum to 3000, the overall budget is 3500). *)
Theorem duplicated_label_first_row_only settings fs run d :
  load_dashboard_data settings fs (Some run) = Return (Available d) →
  ∃ result_df,
    read_parquet fs (get_latest_parquet settings fs run "result") = Return result_df ∧
    series_sum ((λ r, row_get r "Estimees" NA) <$> rows result_df)
      = Return (o_totalBudgetEstime (overall_kpis d)) ∧
    series_sum ((λ r, row_get r "Adjusted Cost" NA) <$> rows result_df)
      = Return (o_totalAdjustedCost (overall_kpis d)) ∧
    series_sum ((λ r, row_get r "Ecart" NA) <$> rows result_df)
      = Return (o_totalEcart (overall_kpis d)) ∧
    (λ e, e.1) <$> projects_data d = projects_list d ∧
    Forall (λ '(name, data), ∃ before first_row after,
        rows result_df = before ++ first_row :: after ∧
        Forall (λ r, cell_eq (row_get r "Libelle projet" NA) name = false) before ∧
        cell_eq (row_get first_row "Libelle projet" NA) name = true ∧
        totalBudgetEstime (kpis data) = safe_float (row_get first_row "Estimees" (Num 0)) 0 ∧
        totalAdjustedCost (kpis data)
          = safe_float (row_get first_row "Adjusted Cost" (Num 0)) 0 ∧
        totalEcart (kpis data) = safe_float (row_get first_row "Ecart" (Num 0)) 0 ∧
        heuresReelles (kpis data) = safe_float (row_get first_row "Total Heures" (Num 0)) 0 ∧
        heuresAjustees (kpis data)
          = safe_float (row_get first_row "Adjusted Hours" (Num 0)) 0 ∧
        heuresRetirees (kpis data)
          = safe_float (row_get first_row "Heures Retirées" (Num 0)) 0)
      (projects_data d).
Proof.
  intros H.
  apply load_dashboard_data_inv in H
    as (result_df & employee_summary_df & adjusted_df & entries
        & Hresult & _ & _ & Hbudget & Hcost & Hecart & Hentries & -> & _).
  exists result_df. split; [done|].
  assert (Hsum : ∀ col total, getitem result_df col ≫= series_sum = Return total →
    series_sum ((λ r, row_get r col NA) <$> rows result_df) = Return total).
  { intros col total Hcol. apply bind_Return in Hcol as (cells & Hcells & Hcol).
    by rewrite <- (getitem_Return _ _ _ Hcells). }
  do 3 (split; [by apply Hsum|]).
  induction Hentries as [|projet_name [[name data] row] projects entries Hentry _ [IHl IHr]];
    [by split; constructor|].
  apply project_entry_inv in Hentry
    as (matching & first_row & slice & cost & Hmatching & Hfirst & _ & _ & -> & _
        & Hb & Hac & He & Hh & Hah & Hhr & _).
  rewrite !fmap_cons. simpl. split; [by rewrite IHl|].
  constructor; [|done].
  apply select_eq_Return in Hmatching. apply iloc0_Return in Hfirst as [others Hfirst].
  rewrite Hfirst in Hmatching. symmetry in Hmatching.
  apply (filter_head_first (λ r, cell_eq (row_get r "Libelle projet" NA) projet_name))
    in Hmatching as (before & after & Hrows & Hbefore & Hlabel).
  exists before, first_row, after. repeat split; done.
Qed.

Lemma duplicated_label_first_row_only_witness :
  ∃ d, load_dashboard_data Sample.settings Sample.media (Some Sample.run_feb)
       = Return (Available d) ∧
    (λ e, (e.1, totalBudgetEstime (kpis e.2))) <$> projects_data d
      = [(Str "Alpha", 1000%float); (Str "Beta", 2000%float)] ∧
    o_totalBudgetEstime (overall_kpis d) = 3500%float ∧
    ∃ result_df,
      read_parquet Sample.media
        (get_latest_parquet Sample.settings Sample.media Sample.run_feb "result")
        = Return result_df ∧
      series_sum ((λ r, row_get r "Estimees" NA) <$> rows result_df)
        = Return (o_totalBudgetEstime (overall_kpis d)) ∧
      series_sum ((λ r, row_get r "Adjusted Cost" NA) <$> rows result_df)
        = Return (o_totalAdjustedCost (overall_kpis d)) ∧
      series_sum ((λ r, row_get r "Ecart" NA) <$> rows result_df)
        = Return (o_totalEcart (overall_kpis d)) ∧
      (λ e, e.1) <$> projects_data d = projects_list d ∧
      Forall (λ '(name, data), ∃ before first_row after,
          rows result_df = before ++ first_row :: after ∧
          Forall (λ r, cell_eq (row_get r "Libelle projet" NA) name = false) before ∧
          cell_eq (row_get first_row "Libelle projet" NA) name = true ∧
          totalBudgetEstime (kpis data) = safe_float (row_get first_row "Estimees" (Num 0)) 0 ∧
          totalAdjustedCost (kpis data)
            = safe_float (row_get first_row "Adjusted Cost" (Num 0)) 0 ∧
          totalEcart (kpis data) = safe_float (row_get first_row "Ecart" (Num 0)) 0 ∧
          heuresReelles (kpis data) = safe_float (row_get first_row "Total Heures" (Num 0)) 0 ∧
          heuresAjustees (kpis data)
            = safe_float (row_get first_row "Adjusted Hours" (Num 0)) 0 ∧
          heuresRetirees (kpis data)
            = safe_float (row_get first_row "Heures Retirées" (Num 0)) 0)
        (projects_data d).
Proof.
  eexists. split; [vm_compute; reflexivity|].
  split; [vm_compute; reflexivity|].
  split; [vm_compute; reflexivity|].
  apply (duplicated_label_first_row_only Sample.settings Sample.media Sample.run_feb).
  vm_compute; reflexivity.
Defined.

End aggregation.

(** ** Snapshot resolution and the boundary of the aggregation *)

Section snapshots.
Import DataAccess.

(** C5. For every run and every logical table name, [get_latest_parquet]
    returns the updated file when it exists (whether or not the initial
    one exists too), else the initial file when it exists, else [None]. *)
Theorem get_latest_parquet_updated_wins settings (fs : FileSystem) run base_name :
  let updated_file := joinpath (data_path settings run) (base_name +:+ "_updated.parquet") in
  let initial_file := joinpath (data_path settings run) (base_name +:+ "_initial.parquet") in
  (is_Some (fs !! updated_file) →
     get_latest_parquet settings fs run base_name = Some updated_file) ∧
  (fs !! updated_file = None → is_Some (fs !! initial_file) →
     get_latest_parquet settings fs run base_name = Some initial_file) ∧
  (fs !! updated_file = None → fs !! initial_file = None →
     get_latest_parquet settings fs run base_name = None).
Proof.
  intros updated_file initial_file. unfold get_latest_parquet, path_exists.
  fold updated_file initial_file.
  repeat split.
  - intros Hu. by rewrite bool_decide_eq_true_2.
  - intros Hu Hi. rewrite bool_decide_eq_false_2 by (rewrite Hu; by intros [? ?]).
    by rewrite bool_decide_eq_true_2.
  - intros Hu Hi. rewrite !bool_decide_eq_false_2; [done | |]; rewrite ?Hu, ?Hi; by intros [? ?].
Qed.

(** C6. [load_dashboard_data] returns a tagged result for every run and
    never raises: with no run, or a run whose data is not available, the
    result is unavailable with the reason 'No data available'; when a read
    of one of the three snapshot tables fails, or anything else in the
    aggregation raises, the result is unavailable and the reason carries
    the text of the exception. *)
Theorem load_dashboard_data_never_raises settings fs run :
  ∃ data, load_dashboard_data settings fs run = Return data ∧
    (run = None → data = Unavailable "No data available") ∧
    (∀ r, run = Some r → is_data_available settings fs r = false →
       data = Unavailable "No data available") ∧
    (∀ r e, run = Some r → is_data_available settings fs r = true →
       load_dashboard_body settings fs r = Raise e →
       data = Unavailable ("Error loading data: " +:+ str e)) ∧
    (∀ r name e, run = Some r → is_data_available settings fs r = true →
       name ∈ ["result"; "employee_summary"; "adjusted"] →
       read_parquet fs (get_latest_parquet settings fs r name) = Raise e →
       ∃ e', data = Unavailable ("Error loading data: " +:+ str e')).
Proof.
  destruct run as [r|]; simpl.
  2: { eexists. split; [done|]. repeat split; intros; (done || congruence). }
  destruct (is_data_available settings fs r) eqn:Havailable; simpl.
  2: { eexists. split; [done|]. repeat split; intros; simplify_eq; (done || congruence). }
  unfold try_except.
  destruct (load_dashboard_body settings fs r) as [data|e0] eqn:Hbody.
  - exists data. split; [done|]. split; [done|]. split; [|split].
    + intros r' [= <-]. congruence.
    + intros r' e [= <-]. congruence.
    + intros r' name e [= <-] _ Hname Hread. exfalso.
      unfold load_dashboard_body in Hbody.
      apply bind_Return in Hbody as (? & H1 & Hbody).
      apply bind_Return in Hbody as (? & H2 & Hbody).
      apply bind_Return in Hbody as (? & H3 & Hbody).
      set_unfold in Hname. destruct Hname as [->|[->|[->|[]]]]; congruence.
  - eexists. split; [done|]. split; [done|]. split; [|split].
    + intros r' [= <-]. congruence.
    + intros r' e [= <-] _ He. rewrite Hbody in He. by injection He as <-.
    + intros. eauto.
Qed.

Lemma get_latest_parquet_updated_wins_witness :
  get_latest_parquet Sample.settings Sample.media Sample.run_feb "result"
    = Some "/media/slr_temp_runs/run-feb/result_updated.parquet" ∧
  get_latest_parquet Sample.settings Sample.media Sample.run_feb "employee_summary"
    = Some "/media/slr_temp_runs/run-feb/employee_summary_initial.parquet" ∧
  get_latest_parquet Sample.settings Sample.media Sample.run_feb "global_summary" = None.
Proof.
  pose proof (get_latest_parquet_updated_wins Sample.settings Sample.media Sample.run_feb
    "result") as (Hupdated & _).
  pose proof (get_latest_parquet_updated_wins Sample.settings Sample.media Sample.run_feb
    "employee_summary") as (_ & Hinitial & _).
  pose proof (get_latest_parquet_updated_wins Sample.settings Sample.media Sample.run_feb
    "global_summary") as (_ & _ & Hnone).
  split; [apply Hupdated; vm_compute; eauto|].
  split; [apply Hinitial; [vm_compute; reflexivity | vm_compute; eauto]|].
  apply Hnone; vm_compute; reflexivity.
Defined.

Lemma load_dashboard_data_never_raises_witness :
  ∃ data,
    load_dashboard_data Sample.settings Sample.media (Some Sample.run_mar) = Return data ∧
    is_data_available Sample.settings Sample.media Sample.run_mar = true ∧
    read_parquet Sample.media
      (get_latest_parquet Sample.settings Sample.media Sample.run_mar "employee_summary")
      = Raise (ArrowInvalid "/media/slr_temp_runs/run-mar/employee_summary_initial.parquet") ∧
    data_available data = false ∧
    data = Unavailable ("Error loading data: " +:+
      str (ArrowInvalid "/media/slr_temp_runs/run-mar/employee_summary_initial.parquet")).
Proof.
  destruct (load_dashboard_data_never_raises Sample.settings Sample.media (Some Sample.run_mar))
    as (data & Hdata & _ & _ & Hbody & _).
  exists data. split; [exact Hdata|].
  split; [vm_compute; reflexivity|]. split; [vm_compute; reflexivity|].
  assert (Hreason : data = Unavailable ("Error loading data: " +:+
      str (ArrowInvalid "/media/slr_temp_runs/run-mar/employee_summary_initial.parquet"))).
  { apply (Hbody Sample.run_mar); [reflexivity | vm_compute; reflexivity
                                  | vm_compute; reflexivity]. }
  split; [by rewrite Hreason | exact Hreason].
Defined.

End snapshots.

(** ** Run resolution *)

Section resolution.
Import DataAccess.

Lemma newer_first_total : base.Total newer_first.
Proof. intros a b. unfold newer_first. lia. Qed.

Lemma newer_first_transitive : Transitive newer_first.
Proof. intros a b c. unfold newer_first. lia. Qed.

Lemma order_by_sorted q : StronglySorted newer_first (order_by_created_at_desc q).
Proof.
  apply (@StronglySorted_merge_sort _ _ _ newer_first_transitive newer_first_total).
Qed.

Lemma order_by_permutation q : order_by_created_at_desc q ≡ₚ q.
Proof. apply merge_sort_Permutation. Qed.

(** [run_id] is a unique column: looking a run of the table up by its id
    finds that run. *)
Lemma find_by_run_id (reg : Registry) run :
  NoDup (run_id <$> reg) → run ∈ reg →
  find (λ r, String.eqb (run_id r) (run_id run)) reg = Some run.
Proof.
  induction reg as [|a reg IH]; [by intros _ ?%elem_of_nil|].
  rewrite fmap_cons, NoDup_cons. intros [Ha Hreg] Hrun. simpl.
  apply elem_of_cons in Hrun as [->|Hrun]; [by rewrite String.eqb_refl|].
  destruct (String.eqb (run_id a) (run_id run)) eqn:Heq; [|by apply IH].
  apply String.eqb_eq in Heq. exfalso. apply Ha. rewrite Heq.
  by apply list_elem_of_fmap_2.
Qed.

(** [get_preferred_run] returns for every state of the tables. *)
Lemma get_preferred_run_value settings fs reg (prefs : Preferences) request :
  get_preferred_run settings fs reg prefs request =
  Return (match prefs !! get_user_identifier request ≫= follow_preferred_run reg with
          | Some run => if is_data_available settings fs run then Some run
                        else get_latest_run reg
          | None => get_latest_run reg
          end).
Proof.
  unfold get_preferred_run, prefs_get.
  destruct (prefs !! get_user_identifier request) as [p|]; simpl; [|done].
  destruct (follow_preferred_run reg p) as [run|]; simpl; [|done].
  by destruct (is_data_available settings fs run).
Qed.

(** C9. Once [set_preferred_run] has stored a run of the table whose data
    is available, [get_preferred_run] (no explicit run id) returns that
    run for the same user; this holds whatever the status of the run, so
    for a completed run in particular. *)
Theorem preference_round_trip settings fs (reg : Registry) (prefs : Preferences) request run :
  NoDup (run_id <$> reg) →
  run ∈ reg →
  is_data_available settings fs run = true →
  ∃ prefs',
    set_preferred_run reg prefs request (run_id run) = Return (true, prefs') ∧
    get_preferred_run settings fs reg prefs' request = Return (Some run).
Proof.
  intros Hunique Hrun Havailable.
  pose proof (find_by_run_id reg run Hunique Hrun) as Hfind.
  eexists. split.
  - unfold set_preferred_run, runs_get. rewrite Hfind. done.
  - rewrite get_preferred_run_value. unfold prefs_set.
    rewrite lookup_insert_eq. simpl.
    unfold follow_preferred_run. simpl. rewrite Hfind. by rewrite Havailable.
Qed.

Lemma preference_round_trip_witness :
  NoDup (run_id <$> Sample.registry) ∧
  Sample.run_jan ∈ Sample.registry ∧
  status Sample.run_jan = completed ∧
  is_data_available Sample.settings Sample.media Sample.run_jan = true ∧
  ∃ prefs',
    set_preferred_run Sample.registry Sample.no_preferences Sample.request
      (run_id Sample.run_jan) = Return (true, prefs') ∧
    get_preferred_run Sample.settings Sample.media Sample.registry prefs' Sample.request
      = Return (Some Sample.run_jan).
Proof.
  assert (Hunique : NoDup (run_id <$> Sample.registry))
    by (apply (bool_decide_unpack _); vm_compute; exact I).
  assert (Hrun : Sample.run_jan ∈ Sample.registry)
    by (unfold Sample.registry; do 2 apply list_elem_of_further; apply list_elem_of_here).
  repeat split; try done.
  exact (preference_round_trip Sample.settings Sample.media Sample.registry
           Sample.no_preferences Sample.request Sample.run_jan Hunique Hrun eq_refl).
Defined.

(** C3, as the code has it.  [get_preferred_run] uses the stored preferred
    run exactly when the run is in the table and its data is available:
    the status of the run is not looked at.  A stored preference whose
    data is not available is skipped, and the result is the most recent run
    that is completed or updated and not archived.  In [get_current_run], a
    stored preference whose status is not 'completed' is skipped and
    resolution goes on with the latest completed run. *)
Theorem preferred_run_checks settings fs (reg : Registry) (prefs : Preferences) request self :
  (∀ run,
     prefs !! get_user_identifier request ≫= follow_preferred_run reg = Some run →
     is_data_available settings fs run = true →
     get_preferred_run settings fs reg prefs request = Return (Some run)) ∧
  (∀ run,
     prefs !! get_user_identifier request ≫= follow_preferred_run reg = Some run →
     is_data_available settings fs run = false →
     get_preferred_run settings fs reg prefs request
       = Return (head (get_available_runs reg))) ∧
  (prefs !! get_user_identifier request ≫= follow_preferred_run reg = None →
     get_preferred_run settings fs reg prefs request
       = Return (head (get_available_runs reg))) ∧
  (∀ run,
     DataAccessService.get_user_preferred_run reg self prefs = Return (Some run) →
     status run ≠ completed →
     DataAccessService.get_current_run settings fs reg self prefs
       = DataAccessService.latest_completed_step settings fs reg).
Proof.
  split; [|split; [|split]].
  - intros run Hpref Havailable. rewrite get_preferred_run_value, Hpref. by rewrite Havailable.
  - intros run Hpref Havailable. rewrite get_preferred_run_value, Hpref. by rewrite Havailable.
  - intros Hpref. by rewrite get_preferred_run_value, Hpref.
  - intros run Hpref Hstatus. unfold DataAccessService.get_current_run.
    rewrite Hpref. simpl. by rewrite bool_decide_eq_false_2.
Qed.

Lemma preferred_run_checks_witness :
  get_preferred_run Sample.settings Sample.media Sample.registry
    (Sample.prefers "run-mar") Sample.request = Return (Some Sample.run_mar) ∧
  get_preferred_run Sample.settings Sample.media Sample.registry
    (Sample.prefers "run-old") Sample.request
    = Return (head (get_available_runs Sample.registry)) ∧
  get_preferred_run Sample.settings Sample.media Sample.registry
    Sample.no_preferences Sample.request
    = Return (head (get_available_runs Sample.registry)) ∧
  DataAccessService.get_current_run Sample.settings Sample.media Sample.registry Sample.self
    (Sample.prefers "run-mar")
    = DataAccessService.latest_completed_step Sample.settings Sample.media Sample.registry.
Proof.
  pose proof (preferred_run_checks Sample.settings Sample.media Sample.registry
    (Sample.prefers "run-mar") Sample.request Sample.self) as (Hused & _ & _ & Hskipped).
  pose proof (preferred_run_checks Sample.settings Sample.media Sample.registry
    (Sample.prefers "run-old") Sample.request Sample.self) as (_ & Hunavailable & _).
  pose proof (preferred_run_checks Sample.settings Sample.media Sample.registry
    Sample.no_preferences Sample.request Sample.self) as (_ & _ & Hnone & _).
  split; [exact (Hused Sample.run_mar eq_refl eq_refl)|].
  split; [exact (Hunavailable Sample.run_old eq_refl eq_refl)|].
  split; [exact (Hnone eq_refl)|].
  apply (Hskipped Sample.run_mar eq_refl). discriminate.
Defined.

(** The claim C3 fails on [get_preferred_run]: a stored preference for a
    run that is still processing is used, because its files exist. *)
Lemma preferred_run_status_unchecked :
  get_preferred_run Sample.settings Sample.media Sample.registry
    (Sample.prefers "run-mar") Sample.request = Return (Some Sample.run_mar) ∧
  status Sample.run_mar = processing ∧
  get_latest_run Sample.registry = Some Sample.run_feb.
Proof. repeat split; vm_compute; reflexivity. Qed.

(** C2, as the code has it.  In [get_calculation_data] (the strict caller,
    which accepts a run only with status 'completed'), a non-empty explicit
    run id that matches no completed run falls through to
    [get_current_run], exactly as when no id is given; an id that matches
    one selects it.  In [get_dashboard_context], a non-empty explicit run
    id that is not in the table gives no run, without falling through, and
    an id that is in the table selects that run whatever its status. *)
Theorem explicit_run_id_resolution settings fs (reg : Registry) (prefs : Preferences)
    request self id :
  nonempty id = true →
  (find (λ r, String.eqb (run_id r) id && bool_decide (status r = completed)) reg = None →
     DataAccessService.requested_run settings fs reg self prefs (Some id)
       = DataAccessService.get_current_run settings fs reg self prefs ∧
     DataAccessService.requested_run settings fs reg self prefs (Some id)
       = DataAccessService.requested_run settings fs reg self prefs None) ∧
  (∀ run,
     find (λ r, String.eqb (run_id r) id && bool_decide (status r = completed)) reg = Some run →
     DataAccessService.requested_run settings fs reg self prefs (Some id) = Return (Some run)) ∧
  (find (λ r, String.eqb (run_id r) id) reg = None →
     context_run settings fs reg prefs request (Some id) = Return None) ∧
  (∀ run,
     find (λ r, String.eqb (run_id r) id) reg = Some run →
     context_run settings fs reg prefs request (Some id) = Return (Some run)).
Proof.
  intros Hid. unfold DataAccessService.requested_run, context_run, runs_get.
  rewrite Hid. split; [|split; [|split]].
  - by intros ->.
  - by intros run ->.
  - by intros ->.
  - by intros run ->.
Qed.

Lemma explicit_run_id_resolution_witness :
  nonempty "run-nowhere" = true ∧
  find (λ r, String.eqb (run_id r) "run-nowhere") Sample.registry = None ∧
  DataAccessService.requested_run Sample.settings Sample.media Sample.registry Sample.self
    (Sample.prefers "run-jan") (Some "run-nowhere")
    = DataAccessService.get_current_run Sample.settings Sample.media Sample.registry
        Sample.self (Sample.prefers "run-jan") ∧
  DataAccessService.requested_run Sample.settings Sample.media Sample.registry Sample.self
    (Sample.prefers "run-jan") (Some "run-feb")
    = DataAccessService.requested_run Sample.settings Sample.media Sample.registry
        Sample.self (Sample.prefers "run-jan") None ∧
  context_run Sample.settings Sample.media Sample.registry (Sample.prefers "run-jan")
    Sample.request (Some "run-nowhere") = Return None ∧
  context_run Sample.settings Sample.media Sample.registry (Sample.prefers "run-jan")
    Sample.request (Some "run-mar") = Return (Some Sample.run_mar).
Proof.
  pose proof (explicit_run_id_resolution Sample.settings Sample.media Sample.registry
    (Sample.prefers "run-jan") Sample.request Sample.self "run-nowhere" eq_refl)
    as (Hstrict & _ & Hcontext & _).
  pose proof (explicit_run_id_resolution Sample.settings Sample.media Sample.registry
    (Sample.prefers "run-jan") Sample.request Sample.self "run-feb" eq_refl)
    as (Hupdated & _).
  pose proof (explicit_run_id_resolution Sample.settings Sample.media Sample.registry
    (Sample.prefers "run-jan") Sample.request Sample.self "run-mar" eq_refl)
    as (_ & _ & _ & Hfound).
  split; [reflexivity|]. split; [reflexivity|].
  split; [exact (proj1 (Hstrict eq_refl))|].
  split; [exact (proj2 (Hupdated eq_refl))|].
  split; [exact (Hcontext eq_refl) | exact (Hfound Sample.run_mar eq_refl)].
Defined.

(** The claim C2 fails on [get_dashboard_context]: an explicit run id that
    is not in the table stops with no run, although the stored preference
    of the user would resolve to a run. *)
Lemma explicit_run_id_not_found_stops :
  context_run Sample.settings Sample.media Sample.registry (Sample.prefers "run-jan")
    Sample.request (Some "run-nowhere") = Return None ∧
  context_run Sample.settings Sample.media Sample.registry (Sample.prefers "run-jan")
    Sample.request None = Return (Some Sample.run_jan) ∧
  (∃ ctx, get_dashboard_context Sample.settings Sample.media Sample.registry
            (Sample.prefers "run-jan") Sample.request (Some "run-nowhere") = Return ctx ∧
          current_run ctx = None ∧
          dashboard_data ctx = Unavailable "No data available").
Proof.
  split; [vm_compute; reflexivity|]. split; [vm_compute; reflexivity|].
  eexists. split; [vm_compute; reflexivity|]. split; reflexivity.
Qed.

(** C8, as the code has it.  [get_available_runs] of data_access.py
    returns exactly the runs that are completed or updated and not
    archived, newest first, and the latest-run fallback of
    [get_preferred_run] takes the head of that list.  [get_available_runs]
    of data_access_service.py returns, newest first, exactly the runs whose
    status is 'completed', archived or not (every run when
    [include_running] is set), and [get_latest_completed_run] is the head
    of that list. *)
Theorem available_runs_listing (reg : Registry) :
  ((∀ r, r ∈ get_available_runs reg ↔
         r ∈ reg ∧ status r ∈ [completed; updated] ∧ is_archived r = false) ∧
   get_available_runs reg ≡ₚ filter successful reg ∧
   StronglySorted (λ a b, (created_at b ≤ created_at a)%Z) (get_available_runs reg) ∧
   get_latest_run reg = head (get_available_runs reg) ∧
   (∀ settings fs request,
      get_preferred_run settings fs reg ∅ request = Return (head (get_available_runs reg)))) ∧
  ((∀ r, r ∈ DataAccessService.get_available_runs reg false ↔
         r ∈ reg ∧ status r = completed) ∧
   DataAccessService.get_available_runs reg true ≡ₚ reg ∧
   StronglySorted (λ a b, (created_at b ≤ created_at a)%Z)
     (DataAccessService.get_available_runs reg false) ∧
   DataAccessService.get_latest_completed_run reg
     = head (DataAccessService.get_available_runs reg false)).
Proof.
  split; [split; [|split; [|split; [|split]]] | split; [|split; [|split]]].
  - intros r. unfold get_available_runs. rewrite order_by_permutation.
    rewrite list_elem_of_filter. unfold successful.
    rewrite andb_True, bool_decide_spec, negb_True, Is_true_false. tauto.
  - apply order_by_permutation.
  - apply order_by_sorted.
  - done.
  - intros settings fs request. rewrite get_preferred_run_value.
    by rewrite lookup_empty.
  - intros r. unfold DataAccessService.get_available_runs. simpl.
    rewrite order_by_permutation, list_elem_of_filter, bool_decide_spec. tauto.
  - apply order_by_permutation.
  - apply order_by_sorted.
  - done.
Qed.

(** The claim C8 fails on [get_available_runs] of data_access_service.py:
    it lists an archived run and leaves an updated one out. *)
Lemma service_listing_differs :
  DataAccessService.get_available_runs Sample.registry false
    = [Sample.run_jan; Sample.run_old] ∧
  is_archived Sample.run_old = true ∧
  Sample.run_feb ∈ Sample.registry ∧
  status Sample.run_feb = updated ∧
  is_archived Sample.run_feb = false ∧
  DataAccessService.get_latest_completed_run Sample.registry = Some Sample.run_jan ∧
  get_latest_run Sample.registry = Some Sample.run_feb.
Proof.
  split; [vm_compute; reflexivity|]. split; [reflexivity|].
  split; [do 3 apply list_elem_of_further; apply list_elem_of_here|].
  repeat split; vm_compute; reflexivity.
Qed.

End resolution.

(** ** [get_current_run] and the cache of [get_calculation_data] *)

Section cache.
Import DataAccessService.
Context {Kpis : Type} (_compute_kpis : DataFrame → DataFrame → Kpis).

(** [get_current_run] asks [is_data_available()] of every run it
    considers, so it never returns a run: it returns [None] or raises. *)
Lemma get_current_run_never_a_run settings fs reg self prefs run :
  get_current_run settings fs reg self prefs ≠ Return (Some run).
Proof.
  unfold get_current_run, latest_completed_step, call_bool.
  destruct (get_user_preferred_run reg self prefs) as [[preferred|]|e]; simpl; [| |done].
  - case_bool_decide; simpl; [done|].
    by destruct (get_latest_completed_run reg).
  - by destruct (get_latest_completed_run reg).
Qed.

(** With no completed run in the table and no preference stored,
    [get_current_run] returns [None]. *)
Lemma get_current_run_nothing_stored settings fs self :
  get_current_run settings fs [] self ∅ = Return None.
Proof. reflexivity. Qed.

(** C4 at its failing input: one completed run with its files in place
    and no stored preference.  [get_current_run] raises [TypeError], where
    [get_preferred_run] of data_access.py returns the run. *)
Theorem get_current_run_raises_type_error :
  get_current_run Sample.settings Sample.media [Sample.run_jan] Sample.self
    Sample.no_preferences = Raise (TypeError "'bool' object is not callable") ∧
  DataAccess.get_preferred_run Sample.settings Sample.media [Sample.run_jan]
    Sample.no_preferences Sample.request = Return (Some Sample.run_jan).
Proof. split; vm_compute; reflexivity. Qed.

(** [_invalidate_cache] leaves every entry in place. *)
Lemma _invalidate_cache_keeps_entries (cache : gmap string (CalculationData (Kpis:=Kpis) * Z)) :
  _invalidate_cache cache = cache.
Proof. reflexivity. Qed.

(** A live entry for the requested run is returned as it is. *)
Lemma get_calculation_data_cache_hit settings fs reg self now prefs
    (cache : gmap string (CalculationData * Z)) id run value :
  requested_run settings fs reg self prefs id = Return (Some run) →
  cache_get now cache (_cache_prefix self +:+ "_data_" +:+ run_id run) = Some value →
  get_calculation_data _compute_kpis settings fs reg self now prefs cache id false
    = Return (value, cache).
Proof. intros Hrun Hhit. unfold get_calculation_data. rewrite Hrun. simpl. by rewrite Hhit. Qed.

(** C7 at its failing input.  At instant 0 the data of "run-jan" is
    computed and cached.  The result table of the run is then adjusted, the
    user sets the run as preferred (or the run is completed again), which
    calls [_invalidate_cache].  At instant 60 the next call still returns
    the entry cached at instant 0; a forced refresh shows what a
    recomputation gives. *)
Theorem cached_entry_survives_invalidation :
  let first := Sample.data_jan _compute_kpis Sample.media Sample.result_jan in
  let fresh := Sample.data_jan _compute_kpis Sample.media_adjusted Sample.result_jan_updated in
  let cache1 := cache_set 0 ∅ Sample.cache_key_jan first 3600 in
  get_calculation_data _compute_kpis Sample.settings Sample.media Sample.registry
    Sample.self 0 Sample.no_preferences ∅ (Some "run-jan") false = Return (first, cache1) ∧
  set_user_preferred_run Sample.self Sample.no_preferences cache1 Sample.run_jan
    = (Sample.prefers "run-jan", cache1) ∧
  (complete_calculation_run Sample.settings Sample.media_adjusted Sample.registry
     cache1 "run-jan").2 = cache1 ∧
  get_calculation_data _compute_kpis Sample.settings Sample.media_adjusted Sample.registry
    Sample.self 60 (Sample.prefers "run-jan") cache1 (Some "run-jan") false
    = Return (first, cache1) ∧
  get_calculation_data _compute_kpis Sample.settings Sample.media_adjusted Sample.registry
    Sample.self 60 (Sample.prefers "run-jan") cache1 (Some "run-jan") true
    = Return (fresh, cache_set 60 cache1 Sample.cache_key_jan fresh 3600) ∧
  length (rows (projects_data first)) = 4 ∧
  length (rows (projects_data fresh)) = 1.
Proof.
  intros first fresh cache1.
  assert (Hrun : ∀ fs prefs,
    requested_run Sample.settings fs Sample.registry Sample.self prefs (Some "run-jan")
    = Return (Some Sample.run_jan)) by reflexivity.
  split; [reflexivity|]. split; [reflexivity|]. split; [reflexivity|].
  split; [|split; [reflexivity | split; reflexivity]].
  apply get_calculation_data_cache_hit with (run := Sample.run_jan); [apply Hrun|].
  unfold cache_get, cache1, cache_set. fold Sample.cache_key_jan.
  by rewrite lookup_insert_eq.
Qed.

End cache.

(** * Further properties of the services *)

(** ** The user identifier *)

Section identifier.
Import DataAccess.






End identifier.

(** ** The dashboard and the cached summary of a run *)

Section overall.
Import DataAccess.

Lemma fmap_Return {A B} (m : outcome A) (f : A → B) b :
  f <$> m = Return b → ∃ a, m = Return a ∧ b = f a.
Proof. destruct m as [a|e]; simpl; [intros [= <-]; eauto | discriminate]. Qed.

Lemma read_parquet_Return fs path df :
  read_parquet fs path = Return df → ∃ p, path = Some p ∧ fs !! p = Some (Parquet df).
Proof.
  unfold read_parquet. destruct path as [p|]; [|discriminate].
  destruct (fs !! p) as [[|df'|]|] eqn:Hp; try discriminate. intros [= <-]. eauto.
Qed.

Lemma getitem_has_column df col cells :
  getitem df col = Return cells → has_column df col = true.
Proof. unfold getitem. by destruct (has_column df col). Qed.

Lemma pct_value ecart budget :
  pct ecart budget
  = Return (if (budget =? 0)%float then 0%float else (ecart / budget * 100)%float).
Proof. unfold pct, truthy, truediv. by destruct (budget =? 0)%float. Qed.

Lemma unique_length l : length (unique l) ≤ length l.
Proof.
  unfold unique.
  assert (H : ∀ seen, length (foldl (λ seen c,
      if existsb (cell_same c) seen then seen else seen ++ [c]) seen l)
    ≤ length seen + length l); [|by apply (H [])].
  induction l as [|c l IH]; intros seen; simpl; [lia|].
  destruct (existsb (cell_same c) seen).
  - specialize (IH seen). lia.
  - specialize (IH (seen ++ [c])). rewrite length_app in IH. simpl in IH. lia.
Qed.

Lemma fmap_the_str l : forallb is_str l = true → Str <$> (the_str <$> l) = l.
Proof.
  induction l as [|[x|s] l IH]; [done|discriminate|].
  intros H. rewrite !fmap_cons. simpl in *. f_equal. by apply IH.
Qed.

Lemma fmap_the_num l : forallb is_num l = true → Num <$> (the_num <$> l) = l.
Proof.
  induction l as [|[x|s] l IH]; [done| |discriminate].
  intros H. rewrite !fmap_cons. simpl in *. f_equal. by apply IH.
Qed.

Lemma sorted_permutation l l' : sorted l = Return l' → l' ≡ₚ l.
Proof.
  unfold sorted. destruct (forallb is_str l) eqn:Hstr.
  - intros [= <-]. by rewrite merge_sort_Permutation, fmap_the_str.
  - destruct (forallb is_num l) eqn:Hnum; [|discriminate].
    intros [= <-]. by rewrite merge_sort_Permutation, fmap_the_num.
Qed.

(** What the overall part of an available dashboard was computed from. *)
Lemma load_dashboard_data_overall settings fs run d :
  load_dashboard_data settings fs (Some run) = Return (Available d) →
  is_data_available settings fs run = true ∧
  ∃ result_df employee_summary_df adjusted_df labels noms entries,
    read_parquet fs (get_latest_parquet settings fs run "result") = Return result_df ∧
    read_parquet fs (get_latest_parquet settings fs run "employee_summary")
      = Return employee_summary_df ∧
    read_parquet fs (get_latest_parquet settings fs run "adjusted") = Return adjusted_df ∧
    getitem result_df "Libelle projet" = Return labels ∧
    sorted (unique labels) = Return (projects_list d) ∧
    getitem employee_summary_df "Nom" = Return noms ∧
    o_nbEmployes (overall_kpis d) = nunique noms ∧
    o_totalProjects (overall_kpis d) = length (projects_list d) ∧
    getitem result_df "Estimees" ≫= series_sum = Return (o_totalBudgetEstime (overall_kpis d)) ∧
    getitem result_df "Adjusted Cost" ≫= series_sum
      = Return (o_totalAdjustedCost (overall_kpis d)) ∧
    getitem result_df "Ecart" ≫= series_sum = Return (o_totalEcart (overall_kpis d)) ∧
    pct (o_totalEcart (overall_kpis d)) (o_totalBudgetEstime (overall_kpis d))
      = Return (o_pctAjustement (overall_kpis d)) ∧
    Forall2 (λ projet_name entry,
        project_entry result_df employee_summary_df adjusted_df projet_name = Return entry)
      (projects_list d) entries ∧
    projects_data d = (λ e, e.1) <$> entries ∧
    table_projets d = (λ e, e.2) <$> entries ∧
    ri_has_updates (run_info d) = has_updates settings fs run ∧
    ri_run_id (run_info d) = run_id run.
Proof.
  unfold load_dashboard_data.
  destruct (is_data_available settings fs run); simpl; [|discriminate].
  unfold try_except.
  destruct (load_dashboard_body settings fs run) as [data|e] eqn:H; [|discriminate].
  intros [= ->]. split; [done|]. unfold load_dashboard_body in H.
  apply bind_Return in H as (result_df & Hresult & H).
  apply bind_Return in H as (employee_summary_df & Hemployee & H).
  apply bind_Return in H as (adjusted_df & Hadjusted & H).
  apply bind_Return in H as (projects & Hprojects & H).
  apply bind_Return in Hprojects as (uniq & Hlabels & Hsorted).
  apply fmap_Return in Hlabels as (labels & Hlabels & ->).
  apply bind_Return in H as (nb & Hnb & H).
  apply fmap_Return in Hnb as (noms & Hnoms & ->).
  apply bind_Return in H as (budget & Hbudget & H).
  apply bind_Return in H as (adjusted & Hcost & H).
  apply bind_Return in H as (ecart & Hecart & H).
  apply bind_Return in H as (pct_ajustement & Hpct & H).
  apply bind_Return in H as (entries & Hentries & H).
  injection H as <-. simpl.
  exists result_df, employee_summary_df, adjusted_df, labels, noms, entries.
  repeat split; try done. by apply mapM_Return.
Qed.

(** X2. When [load_dashboard_data] returns an available dashboard for a
    run, [load_summary_data] on the same files returns a summary whose
    budget, adjusted cost, variance and employee count are the overall
    KPIs of the dashboard.  Its project count is the number of rows of the
    result table, which the number of projects of the dashboard (the
    distinct labels) never exceeds. *)
Theorem summary_agrees_with_dashboard settings fs run d :
  load_dashboard_data settings fs (Some run) = Return (Available d) →
  ∃ s result_df,
    load_summary_data settings fs run = Some s ∧
    read_parquet fs (get_latest_parquet settings fs run "result") = Return result_df ∧
    s_budget s = o_totalBudgetEstime (overall_kpis d) ∧
    s_adjusted_cost s = o_totalAdjustedCost (overall_kpis d) ∧
    s_variance s = o_totalEcart (overall_kpis d) ∧
    s_employees s = o_nbEmployes (overall_kpis d) ∧
    s_projects s = length (rows result_df) ∧
    o_totalProjects (overall_kpis d) ≤ s_projects s.
Proof.
  intros H. apply load_dashboard_data_overall in H
    as (_ & result_df & employee_summary_df & adjusted_df & labels & noms & entries
        & Hresult & Hemployee & _ & Hlabels & Hsorted & Hnoms & Hnb & Hprojects
        & Hbudget & Hcost & Hecart & _).
  destruct (read_parquet_Return _ _ _ Hresult) as (p1 & Hp1 & _).
  destruct (read_parquet_Return _ _ _ Hemployee) as (p2 & Hp2 & _).
  eexists _, result_df. split.
  - unfold load_summary_data, load_summary_body.
    rewrite Hresult, Hemployee. rewrite Hp1, Hp2.
    rewrite !bool_decide_eq_true_2 by eauto. simpl.
    rewrite Hnoms. simpl. rewrite Hbudget. simpl. rewrite Hcost. simpl.
    rewrite Hecart. simpl. reflexivity.
  - simpl. repeat split; try done.
    rewrite Hprojects, (Permutation_length (sorted_permutation _ _ Hsorted)).
    etrans; [apply unique_length|].
    rewrite (getitem_Return _ _ _ Hlabels), length_fmap. done.
Qed.

Lemma summary_agrees_with_dashboard_witness :
  ∃ d s,
    load_dashboard_data Sample.settings Sample.media (Some Sample.run_feb)
      = Return (Available d) ∧
    load_summary_data Sample.settings Sample.media Sample.run_feb = Some s ∧
    s_budget s = 3500%float ∧
    o_totalBudgetEstime (overall_kpis d) = 3500%float ∧
    s_projects s = 3 ∧
    o_totalProjects (overall_kpis d) = 2.
Proof.
  eexists.
  assert (Hload : load_dashboard_data Sample.settings Sample.media (Some Sample.run_feb)
    = Return (Available _)) by (vm_compute; reflexivity).
  destruct (summary_agrees_with_dashboard _ _ _ _ Hload) as (s & df & Hs & _).
  exists s. split; [exact Hload|]. split; [exact Hs|].
  revert Hs. vm_compute. intros [= <-]. repeat split.
Defined.

End overall.

Section summary_cache.
Import DataAccess.




(** X4. An available dashboard needs more than [is_data_available]
    checks: the run's data is available, all three tables (result,
    employee summary and adjusted) resolve to files that parse, the result
    table has the label, budget, adjusted-cost and variance columns, and
    the employee summary has the name column. *)
Theorem available_dashboard_requirements settings fs run d :
  load_dashboard_data settings fs (Some run) = Return (Available d) →
  is_data_available settings fs run = true ∧
  ∃ result_path employee_path adjusted_path result_df employee_summary_df adjusted_df,
    get_latest_parquet settings fs run "result" = Some result_path ∧
    get_latest_parquet settings fs run "employee_summary" = Some employee_path ∧
    get_latest_parquet settings fs run "adjusted" = Some adjusted_path ∧
    fs !! result_path = Some (Parquet result_df) ∧
    fs !! employee_path = Some (Parquet employee_summary_df) ∧
    fs !! adjusted_path = Some (Parquet adjusted_df) ∧
    Forall (λ col, has_column result_df col = true)
      ["Libelle projet"; "Estimees"; "Adjusted Cost"; "Ecart"] ∧
    has_column employee_summary_df "Nom" = true.
Proof.
  intros H. apply load_dashboard_data_overall in H
    as (Havailable & result_df & employee_summary_df & adjusted_df & labels & noms & entries
        & Hresult & Hemployee & Hadjusted & Hlabels & _ & Hnoms & _ & _
        & Hbudget & Hcost & Hecart & _).
  split; [done|].
  destruct (read_parquet_Return _ _ _ Hresult) as (p1 & Hp1 & Hf1).
  destruct (read_parquet_Return _ _ _ Hemployee) as (p2 & Hp2 & Hf2).
  destruct (read_parquet_Return _ _ _ Hadjusted) as (p3 & Hp3 & Hf3).
  exists p1, p2, p3, result_df, employee_summary_df, adjusted_df.
  repeat split; try done.
  - apply bind_Return in Hbudget as (? & Hbudget & _).
    apply bind_Return in Hcost as (? & Hcost & _).
    apply bind_Return in Hecart as (? & Hecart & _).
    repeat constructor; by eapply getitem_has_column.
  - by eapply getitem_has_column.
Qed.

Lemma available_dashboard_requirements_witness :
  ∃ d, load_dashboard_data Sample.settings Sample.media (Some Sample.run_jan)
       = Return (Available d) ∧
    is_data_available Sample.settings Sample.media Sample.run_jan = true ∧
    get_latest_parquet Sample.settings Sample.media Sample.run_jan "adjusted"
      = Some "/media/slr_temp_runs/run-jan/adjusted_initial.parquet".
Proof.
  eexists.
  assert (Hload : load_dashboard_data Sample.settings Sample.media (Some Sample.run_jan)
    = Return (Available _)) by (vm_compute; reflexivity).
  split; [exact Hload|].
  split; [exact (proj1 (available_dashboard_requirements _ _ _ _ Hload))|].
  vm_compute; reflexivity.
Defined.

(** X5. In an available dashboard the percentage of adjustment, overall
    and of every project, is 0 when the estimated budget is zero and
    variance / budget * 100 otherwise: the division by a zero budget is
    never carried out. *)
Theorem percent_adjustment_guarded settings fs run d :
  load_dashboard_data settings fs (Some run) = Return (Available d) →
  o_pctAjustement (overall_kpis d)
    = (if (o_totalBudgetEstime (overall_kpis d) =? 0)%float then 0%float
       else (o_totalEcart (overall_kpis d) / o_totalBudgetEstime (overall_kpis d) * 100)%float) ∧
  Forall (λ '(name, data),
      pctAjustement (kpis data)
      = (if (totalBudgetEstime (kpis data) =? 0)%float then 0%float
         else (totalEcart (kpis data) / totalBudgetEstime (kpis data) * 100)%float))
    (projects_data d).
Proof.
  intros H. apply load_dashboard_data_overall in H
    as (_ & result_df & employee_summary_df & adjusted_df & labels & noms & entries
        & _ & _ & _ & _ & _ & _ & _ & _ & _ & _ & _ & Hpct & Hentries & -> & _).
  rewrite pct_value in Hpct. split; [by injection Hpct|].
  clear Hpct. induction Hentries as [|projet_name [[name data] row] ps es Hentry _ IH];
    [constructor|].
  rewrite fmap_cons. constructor; [|done]. simpl.
  unfold project_entry in Hentry.
  apply bind_Return in Hentry as (first_row & _ & Hentry).
  apply bind_Return in Hentry as (slice & _ & Hentry).
  apply bind_Return in Hentry as (nb & _ & Hentry).
  apply bind_Return in Hentry as (p & Hp & Hentry).
  apply bind_Return in Hentry as (employees & _ & Hentry).
  apply bind_Return in Hentry as (cost & _ & Hentry).
  injection Hentry as <- <- <-. simpl.
  rewrite pct_value in Hp. by injection Hp.
Qed.

Lemma percent_adjustment_guarded_witness :
  ∃ d, load_dashboard_data Sample.settings Sample.media (Some Sample.run_jan)
       = Return (Available d) ∧
    o_pctAjustement (overall_kpis d) = (-22.5)%float ∧
    o_pctAjustement (overall_kpis d)
      = (if (o_totalBudgetEstime (overall_kpis d) =? 0)%float then 0%float
         else (o_totalEcart (overall_kpis d) / o_totalBudgetEstime (overall_kpis d)
               * 100)%float).
Proof.
  eexists.
  assert (Hload : load_dashboard_data Sample.settings Sample.media (Some Sample.run_jan)
    = Return (Available _)) by (vm_compute; reflexivity).
  split; [exact Hload|]. split; [vm_compute; reflexivity|].
  exact (proj1 (percent_adjustment_guarded _ _ _ _ Hload)).
Defined.

End summary_cache.

(** ** The projects and the employees of an available dashboard *)

Section projects.
Import DataAccess.





Lemma eqb_true_notnan x y : (y =? x)%float = true → is_nan x = false.
Proof.
  unfold is_nan. rewrite !FloatAxioms.eqb_spec. unfold SFeqb.
  destruct (Prim2SF y) as [s|s| |s m e], (Prim2SF x) as [s'|s'| |s' m' e'];
    simpl; try discriminate; try done.
  all: try (by destruct s, s').
  all: try (by destruct s').
  intros _. rewrite Z.compare_refl.
  change (PosDef.Pos.compare_cont Eq m' m') with (Pos.compare m' m').
  rewrite Pos.compare_refl. by destruct s'.
Qed.

Lemma cell_same_refl c : cell_same c c = true.
Proof.
  destruct c as [x|s]; unfold cell_same; simpl.
  - unfold is_nan. by destruct (x =? x)%float.
  - by rewrite String.eqb_refl.
Qed.

Lemma cell_eq_notna c name : cell_eq c name = true → isna name = false.
Proof. destruct c, name; simpl; try done. apply eqb_true_notnan. Qed.

Lemma unique_spec l :
  NoDup (unique l) ∧
  (∀ u, u ∈ unique l → u ∈ l) ∧
  (∀ c, c ∈ l → ∃ u, u ∈ unique l ∧ cell_same c u = true).
Proof.
  unfold unique.
  assert (H : ∀ seen, NoDup seen →
    let out := foldl (λ seen c,
      if existsb (cell_same c) seen then seen else seen ++ [c]) seen l in
    NoDup out ∧ (∀ u, u ∈ out → u ∈ seen ∨ u ∈ l) ∧
    (∀ u, u ∈ seen → u ∈ out) ∧
    (∀ c, c ∈ l → ∃ u, u ∈ out ∧ cell_same c u = true)).
  { induction l as [|c l IH]; intros seen Hseen; simpl.
    - repeat split; auto. by intros c ?%elem_of_nil.
    - destruct (existsb (cell_same c) seen) eqn:Hc.
      + destruct (IH seen Hseen) as (Hnodup & Hfrom & Hkeep & Hcover).
        repeat split; [done| | done |].
        * intros u Hu. destruct (Hfrom u Hu); [by left | right; by right].
        * intros c' [->|Hc']%elem_of_cons; [|by apply Hcover].
          apply existsb_exists in Hc as (u & Hu & Hsame).
          exists u. split; [|done]. by apply Hkeep, list_elem_of_In.
      + assert (Hnew : NoDup (seen ++ [c])).
        { apply NoDup_app. repeat split; [done| |apply NoDup_singleton].
          intros u Hu ->%list_elem_of_singleton.
          assert (existsb (cell_same c) seen = true); [|congruence].
          apply existsb_exists. exists c. split; [by apply list_elem_of_In|].
          apply cell_same_refl. }
        destruct (IH (seen ++ [c]) Hnew) as (Hnodup & Hfrom & Hkeep & Hcover).
        repeat split; [done| | |].
        * intros u Hu. destruct (Hfrom u Hu) as [Hu'|?]; [|right; by right].
          apply elem_of_app in Hu' as [?|Hu']; [by left|].
          apply list_elem_of_singleton in Hu' as ->. right; by left.
        * intros u Hu. apply Hkeep, elem_of_app. by left.
        * intros c' [->|Hc']%elem_of_cons; [|by apply Hcover].
          exists c. split; [|apply cell_same_refl].
          apply Hkeep, elem_of_app. right. by apply list_elem_of_singleton. }
  destruct (H [] (NoDup_nil_2)) as (Hnodup & Hfrom & _ & Hcover).
  repeat split; [done| |done].
  intros u Hu. destruct (Hfrom u Hu) as [?%elem_of_nil|?]; done.
Qed.

(** X7. The projects of an available dashboard partition the rows of the
    result table: the list of projects has no repetition, every project is
    the label of some row, every row carries the label of one of the
    projects (so no row has a missing label), and [projects_data],
    [table_projets] and the project count all have one entry per
    project. *)
Theorem projects_partition_result_rows settings fs run d :
  load_dashboard_data settings fs (Some run) = Return (Available d) →
  ∃ result_df,
    read_parquet fs (get_latest_parquet settings fs run "result") = Return result_df ∧
    NoDup (projects_list d) ∧
    (∀ name, name ∈ projects_list d →
       ∃ r, r ∈ rows result_df ∧ cell_eq (row_get r "Libelle projet" NA) name = true) ∧
    (∀ r, r ∈ rows result_df →
       ∃ name, name ∈ projects_list d ∧
               cell_eq (row_get r "Libelle projet" NA) name = true) ∧
    length (projects_data d) = length (projects_list d) ∧
    length (table_projets d) = length (projects_list d) ∧
    o_totalProjects (overall_kpis d) = length (projects_list d).
Proof.
  intros H. apply load_dashboard_data_overall in H
    as (_ & result_df & employee_summary_df & adjusted_df & labels & noms & entries
        & Hresult & _ & _ & Hlabels & Hsorted & _ & _ & Hcount & _ & _ & _ & _
        & Hentries & -> & -> & _).
  exists result_df. split; [done|].
  apply sorted_permutation in Hsorted.
  destruct (unique_spec labels) as (Hnodup & Hfrom & Hcover).
  apply getitem_Return in Hlabels.
  assert (Hrow : ∀ name, name ∈ projects_list d →
    ∃ r, r ∈ rows result_df ∧ cell_eq (row_get r "Libelle projet" NA) name = true).
  { intros name Hname. apply list_elem_of_lookup_1 in Hname as [i Hi].
    destruct (Forall2_lookup_l _ _ _ _ _ Hentries Hi) as ([[name' data] row] & _ & Hentry).
    apply project_entry_inv in Hentry
      as (matching & first_row & _ & _ & Hmatching & Hfirst & _).
    apply select_eq_Return in Hmatching. apply iloc0_Return in Hfirst as [others Hfirst].
    assert (Hin : first_row ∈ rows matching) by (rewrite Hfirst; apply list_elem_of_here).
    rewrite Hmatching in Hin. apply list_elem_of_filter in Hin as [Hlabel Hin].
    exists first_row. split; [done|]. by apply Is_true_eq_true. }
  split; [by rewrite Hsorted|]. split; [done|]. split.
  - intros r Hr.
    destruct (Hcover (row_get r "Libelle projet" NA)) as (u & Hu & Hsame).
    { rewrite Hlabels. by apply (list_elem_of_fmap_2 (λ r : Row, row_get r "Libelle projet" NA)). }
    rewrite <- Hsorted in Hu. exists u. split; [done|].
    destruct (Hrow u Hu) as (r' & _ & Hlabel). apply cell_eq_notna in Hlabel.
    unfold cell_same in Hsame. rewrite Hlabel, andb_false_r, orb_false_r in Hsame. done.
  - rewrite !length_fmap, <- (Forall2_length _ _ _ Hentries). done.
Qed.

Lemma projects_partition_result_rows_witness :
  ∃ d, load_dashboard_data Sample.settings Sample.media (Some Sample.run_feb)
       = Return (Available d) ∧
    projects_list d = [Str "Alpha"; Str "Beta"] ∧
    ∃ result_df,
      read_parquet Sample.media
        (get_latest_parquet Sample.settings Sample.media Sample.run_feb "result")
        = Return result_df ∧
      length (rows result_df) = 3 ∧
      NoDup (projects_list d).
Proof.
  eexists.
  assert (Hload : load_dashboard_data Sample.settings Sample.media (Some Sample.run_feb)
    = Return (Available _)) by (vm_compute; reflexivity).
  split; [exact Hload|]. split; [vm_compute; reflexivity|].
  destruct (projects_partition_result_rows _ _ _ _ Hload) as (result_df & Hread & Hnodup & _).
  exists result_df. split; [exact Hread|]. split; [|exact Hnodup].
  revert Hread. vm_compute. by intros [= <-].
Defined.

End projects.

(** ** Preferences *)

Section preferences.
Import DataAccess.

(** X8. [set_preferred_run] never raises.  For a run id that is not in
    the table it returns [False] and leaves the preference table as it was;
    for a run id that is in the table it returns [True], the row of the
    calling user points to that run, and no other user's row changes. *)
Theorem set_preferred_run_effect (reg : Registry) (prefs : Preferences) request id :
  (find (λ r, String.eqb (run_id r) id) reg = None →
     set_preferred_run reg prefs request id = Return (false, prefs)) ∧
  (∀ run, find (λ r, String.eqb (run_id r) id) reg = Some run →
     ∃ prefs' : Preferences,
       set_preferred_run reg prefs request id = Return (true, prefs') ∧
       run_id run = id ∧
       prefs' !! get_user_identifier request = Some {| preferred_run := Some id |} ∧
       ∀ user, user ≠ get_user_identifier request → prefs' !! user = prefs !! user).
Proof.
  unfold set_preferred_run, runs_get, prefs_set. split.
  - by intros ->.
  - intros run Hrun. rewrite Hrun. simpl. eexists. split; [done|].
    apply find_some in Hrun as [_ Hid%String.eqb_eq]. rewrite Hid.
    split; [done|]. split; [apply lookup_insert_eq|].
    intros user Huser. by apply lookup_insert_ne.
Qed.

Lemma set_preferred_run_effect_witness :
  set_preferred_run Sample.registry (Sample.prefers "run-jan") Sample.request "run-nowhere"
    = Return (false, Sample.prefers "run-jan") ∧
  ∃ prefs' : Preferences,
    set_preferred_run Sample.registry (Sample.prefers "run-jan") Sample.request "run-feb"
      = Return (true, prefs') ∧
    prefs' !! "10.0.0.7" = Some {| preferred_run := Some "run-feb" |}.
Proof.
  pose proof (set_preferred_run_effect Sample.registry (Sample.prefers "run-jan")
    Sample.request "run-nowhere") as [Hnone _].
  pose proof (set_preferred_run_effect Sample.registry (Sample.prefers "run-jan")
    Sample.request "run-feb") as [_ Hsome].
  split; [exact (Hnone eq_refl)|].
  destruct (Hsome Sample.run_feb eq_refl) as (prefs' & Hset & _ & Hrow & _).
  exists prefs'. split; [exact Hset | exact Hrow].
Defined.

(** X9. Setting the preference of one user does not change the run that
    [get_preferred_run] resolves for a user with another identifier. *)
Theorem set_preferred_run_other_users settings fs (reg : Registry) (prefs prefs' : Preferences)
    request other id ok :
  set_preferred_run reg prefs request id = Return (ok, prefs') →
  get_user_identifier other ≠ get_user_identifier request →
  get_preferred_run settings fs reg prefs' other = get_preferred_run settings fs reg prefs other.
Proof.
  intros Hset Hother. rewrite !get_preferred_run_value.
  unfold set_preferred_run, runs_get, prefs_set in Hset.
  destruct (find _ reg) as [run|]; simpl in Hset; injection Hset as <- <-; [|done].
  by rewrite lookup_insert_ne.
Qed.

Lemma set_preferred_run_other_users_witness :
  ∃ prefs' : Preferences,
    set_preferred_run Sample.registry Sample.no_preferences Sample.request "run-jan"
      = Return (true, prefs') ∧
    get_preferred_run Sample.settings Sample.media Sample.registry prefs'
      {| HTTP_X_FORWARDED_FOR := None; REMOTE_ADDR := Some "10.0.0.8" |}
    = Return (Some Sample.run_feb) ∧
    get_preferred_run Sample.settings Sample.media Sample.registry prefs' Sample.request
    = Return (Some Sample.run_jan).
Proof.
  eexists.
  assert (Hset : set_preferred_run Sample.registry Sample.no_preferences Sample.request
    "run-jan" = Return (true, _)) by reflexivity.
  split; [exact Hset|]. split; [|reflexivity].
  rewrite (set_preferred_run_other_users Sample.settings Sample.media _ _ _ _
    {| HTTP_X_FORWARDED_FOR := None; REMOTE_ADDR := Some "10.0.0.8" |} _ _ Hset);
    [reflexivity | discriminate].
Defined.

End preferences.

(** ** The service of data_access_service.py *)

Section lifecycle.
Import DataAccessService.
Context {Kpis : Type} (_compute_kpis : DataFrame → DataFrame → Kpis).




(** X11. [get_current_run] returns [None] exactly when the table holds no
    run of status 'completed'; as soon as it holds one the call raises
    [TypeError], whatever the stored preference and the files are. *)
Theorem get_current_run_outcome settings fs (reg : Registry) self (prefs : Preferences) :
  ((∀ r, r ∈ reg → status r ≠ completed) →
     get_current_run settings fs reg self prefs = Return None) ∧
  (∀ r, r ∈ reg → status r = completed →
     get_current_run settings fs reg self prefs
     = Raise (TypeError "'bool' object is not callable")).
Proof.
  unfold get_current_run, latest_completed_step, get_latest_completed_run,
    get_user_preferred_run, prefs_get, call_bool, Models.first.
  split.
  - intros Hnone.
    assert (Hfilter : filter (λ r, bool_decide (status r = completed)) reg = []).
    { destruct (filter _ reg) as [|r l] eqn:Hfilter; [done|].
      assert (Hr : r ∈ r :: l) by apply list_elem_of_here.
      rewrite <- Hfilter in Hr. apply list_elem_of_filter in Hr as [Hr Hin].
      rewrite bool_decide_spec in Hr. by destruct (Hnone r Hin). }
    rewrite Hfilter.
    destruct (prefs !! user_ip self) as [p|]; simpl; [|done].
    destruct (follow_preferred_run reg p) as [run|] eqn:Hp; simpl; [|done].
    unfold follow_preferred_run in Hp. destruct (preferred_run p) as [i|]; [|done].
    simpl in Hp. apply find_some in Hp as [Hin _]. apply list_elem_of_In in Hin.
    by rewrite bool_decide_eq_false_2 by (by apply Hnone).
  - intros r Hr Hstatus.
    assert (Hhead : ∃ latest, head (order_by_created_at_desc
      (filter (λ r, bool_decide (status r = completed)) reg)) = Some latest).
    { destruct (order_by_created_at_desc _) as [|latest l] eqn:Hsorted; [|by eexists].
      assert (Hin : r ∈ order_by_created_at_desc
        (filter (λ r, bool_decide (status r = completed)) reg)).
      { rewrite order_by_permutation. apply list_elem_of_filter.
        by rewrite bool_decide_spec. }
      rewrite Hsorted in Hin. by apply elem_of_nil in Hin. }
    destruct Hhead as [latest ->].
    destruct (prefs !! user_ip self) as [p|]; simpl; [|done].
    destruct (follow_preferred_run reg p) as [run|]; simpl; [|done].
    by case_bool_decide.
Qed.

Lemma get_current_run_outcome_witness :
  get_current_run Sample.settings Sample.media [Sample.run_mar] Sample.self
    (Sample.prefers "run-mar") = Return None ∧
  get_current_run Sample.settings Sample.media Sample.registry Sample.self
    (Sample.prefers "run-mar") = Raise (TypeError "'bool' object is not callable").
Proof.
  split.
  - apply (get_current_run_outcome Sample.settings Sample.media [Sample.run_mar]).
    intros r ->%list_elem_of_singleton. discriminate.
  - apply (proj2 (get_current_run_outcome Sample.settings Sample.media Sample.registry
      Sample.self (Sample.prefers "run-mar")) Sample.run_jan); [|reflexivity].
    unfold Sample.registry. do 2 apply list_elem_of_further. apply list_elem_of_here.
Defined.

End lifecycle.


(** ** The cache of [get_calculation_data] *)

Section ttl.
Import DataAccessService.
Context {Kpis : Type} (_compute_kpis : DataFrame → DataFrame → Kpis).
Context (settings : Settings) (reg : Registry) (self : Self).

Local Abbreviation key run := (_cache_prefix self +:+ "_data_" +:+ run_id run).
Local Abbreviation get_data := (get_calculation_data _compute_kpis settings).

Lemma append_inj_r (p s t : string) : p +:+ s = p +:+ t → s = t.
Proof. induction p as [|c p IH]; simpl; [done|]. intros [= H]. by apply IH. Qed.

(** What a call does when it does not use the cache. *)
Lemma get_calculation_data_miss fs now prefs
    (cache : gmap string (CalculationData (Kpis:=Kpis) * Z)) id force run :
  requested_run settings fs reg self prefs id = Return (Some run) →
  force = true ∨ cache_get now cache (key run) = None →
  get_data fs reg self now prefs cache id force
  = match load_calculation_body _compute_kpis settings fs run with
    | Return result => Return (result, cache_set now cache (key run) result 3600)
    | Raise e =>
        Return ({| error := Some (str e);
                   run_info := Some (run_info_of run);
                   projects_data := empty_frame;
                   employees_data := empty_frame;
                   summary_stats := None;
                   kpis := None |}, cache)
    end.
Proof.
  intros Hrun Hmiss. unfold get_calculation_data. rewrite Hrun. simpl.
  destruct Hmiss as [->|Hmiss]; simpl; [|destruct force; simpl; rewrite ?Hmiss];
    by destruct (load_calculation_body _ _ _ _).
Qed.

Lemma load_calculation_body_no_error fs run result :
  load_calculation_body _compute_kpis settings fs run = Return result → error result = None.
Proof.
  unfold load_calculation_body. destruct (_ || _); [discriminate|].
  intros H. apply bind_Return in H as (projects_df & _ & H).
  apply bind_Return in H as (employees_df & _ & H). by injection H as <-.
Qed.

(** X12. A result that [get_calculation_data] computed without error at
    instant [now] is returned unchanged, and the cache is left as it is, by
    every later call for the same run before [now + 3600], whatever the
    snapshot files and the preferences have become.  From [now + 3600] on,
    the call behaves as a forced refresh. *)
Theorem computed_result_cached_one_hour fs fs' now (prefs prefs' : Preferences)
    (cache cache' : gmap string (CalculationData (Kpis:=Kpis) * Z)) id force run result :
  requested_run settings fs reg self prefs id = Return (Some run) →
  requested_run settings fs' reg self prefs' id = Return (Some run) →
  force = true ∨ cache_get now cache (key run) = None →
  get_data fs reg self now prefs cache id force = Return (result, cache') →
  error result = None →
  (∀ now', (now' < now + 3600)%Z →
     get_data fs' reg self now' prefs' cache' id false = Return (result, cache')) ∧
  (∀ now', (now + 3600 ≤ now')%Z →
     get_data fs' reg self now' prefs' cache' id false
     = get_data fs' reg self now' prefs' cache' id true).
Proof.
  intros Hrun Hrun' Hmiss Hcall Herror.
  rewrite (get_calculation_data_miss _ _ _ _ _ _ _ Hrun Hmiss) in Hcall.
  destruct (load_calculation_body _ _ _ _) as [computed|e]; [|by injection Hcall as <- <-].
  injection Hcall as -> <-. split.
  - intros now' Hnow. apply get_calculation_data_cache_hit with (run := run); [done|].
    unfold cache_get, cache_set. rewrite lookup_insert_eq.
    by rewrite bool_decide_eq_true_2.
  - intros now' Hnow.
    rewrite (get_calculation_data_miss fs' now' prefs' _ id false run Hrun').
    + by rewrite (get_calculation_data_miss fs' now' prefs' _ id true run Hrun') by by left.
    + right. unfold cache_get, cache_set. rewrite lookup_insert_eq.
      by rewrite bool_decide_eq_false_2 by lia.
Qed.

(** X13. Error results are never cached: when the result of
    [get_calculation_data] carries an error the cache is returned as it
    was, and a cache that holds only error-free entries holds only
    error-free entries after the call. *)
Theorem error_results_not_cached fs now (prefs : Preferences)
    (cache cache' : gmap string (CalculationData (Kpis:=Kpis) * Z)) id force result :
  get_data fs reg self now prefs cache id force = Return (result, cache') →
  (is_Some (error result) → cache' = cache) ∧
  ((∀ k v t, cache !! k = Some (v, t) → error v = None) →
   (∀ k v t, cache' !! k = Some (v, t) → error v = None)).
Proof.
  unfold get_calculation_data. intros H.
  apply bind_Return in H as (run & Hrun & H).
  destruct run as [run|]; [|by injection H as <- <-].
  destruct (if negb force then _ else None) as [cached|]; [by injection H as <- <-|].
  destruct (load_calculation_body _ _ _ _) as [computed|e] eqn:Hload;
    [|by injection H as <- <-].
  injection H as <- <-. apply load_calculation_body_no_error in Hload. split.
  - rewrite Hload. by intros [? ?].
  - intros Hclean k v t. unfold cache_set. rewrite lookup_insert.
    case_decide; [by intros [= <- <-] | apply Hclean].
Qed.

(** X14. A call of [get_calculation_data] changes at most one entry of
    the cache, the one of the run it resolved; the keys of two runs of one
    user differ as soon as their run ids differ, so the entries of the
    other runs of the user stay as they are. *)
Theorem other_cache_entries_untouched fs now (prefs : Preferences)
    (cache cache' : gmap string (CalculationData (Kpis:=Kpis) * Z)) id force result :
  get_data fs reg self now prefs cache id force = Return (result, cache') →
  (∀ k, cache' !! k ≠ cache !! k →
     ∃ run, requested_run settings fs reg self prefs id = Return (Some run) ∧ k = key run) ∧
  (∀ run other, run_id other ≠ run_id run → key other ≠ key run).
Proof.
  intros H. split.
  - unfold get_calculation_data in H.
    apply bind_Return in H as (run & Hrun & H).
    destruct run as [run|]; [|by injection H as <- <-].
    destruct (if negb force then _ else None) as [cached|]; [by injection H as <- <-|].
    destruct (load_calculation_body _ _ _ _) as [computed|e]; [|by injection H as <- <-].
    injection H as <- <-. intros k Hk. exists run. split; [done|].
    unfold cache_set in Hk. rewrite lookup_insert in Hk. by case_decide.
  - intros run other Hne Hkey. apply Hne.
    by apply append_inj_r, append_inj_r in Hkey.
Qed.

End ttl.

Section ttl_witnesses.
Import DataAccessService.

Lemma computed_result_cached_one_hour_witness :
  let compute := λ projects employees : DataFrame, (len projects, len employees) in
  let first := Sample.data_jan compute Sample.media Sample.result_jan in
  let cache1 := cache_set 0 ∅ Sample.cache_key_jan first 3600 in
  get_calculation_data compute Sample.settings Sample.media Sample.registry Sample.self
    0 Sample.no_preferences ∅ (Some "run-jan") false = Return (first, cache1) ∧
  get_calculation_data compute Sample.settings Sample.media_adjusted Sample.registry
    Sample.self 3599 (Sample.prefers "run-feb") cache1 (Some "run-jan") false
    = Return (first, cache1) ∧
  get_calculation_data compute Sample.settings Sample.media_adjusted Sample.registry
    Sample.self 3600 (Sample.prefers "run-feb") cache1 (Some "run-jan") false
    = get_calculation_data compute Sample.settings Sample.media_adjusted Sample.registry
        Sample.self 3600 (Sample.prefers "run-feb") cache1 (Some "run-jan") true.
Proof.
  intros compute first cache1.
  assert (Hcall : get_calculation_data compute Sample.settings Sample.media Sample.registry
    Sample.self 0 Sample.no_preferences ∅ (Some "run-jan") false = Return (first, cache1))
    by reflexivity.
  assert (Hmiss : false = true ∨
    cache_get (Kpis:=nat * nat) 0 ∅
      (_cache_prefix Sample.self +:+ "_data_" +:+ run_id Sample.run_jan) = None)
    by (right; reflexivity).
  destruct (computed_result_cached_one_hour compute Sample.settings Sample.registry
    Sample.self Sample.media Sample.media_adjusted 0 Sample.no_preferences
    (Sample.prefers "run-feb") ∅ cache1 (Some "run-jan") false Sample.run_jan first
    eq_refl eq_refl Hmiss Hcall eq_refl) as [Hhit Hexpired].
  split; [exact Hcall|]. split; [apply Hhit; lia | apply Hexpired; lia].
Defined.

Lemma error_results_not_cached_witness :
  let compute := λ projects employees : DataFrame, (len projects, len employees) in
  let unreadable := Sample.new_run "run-mar" 300 completed false in
  ∃ result,
    get_calculation_data compute Sample.settings Sample.media [unreadable] Sample.self
      0 Sample.no_preferences ∅ (Some "run-mar") false = Return (result, ∅) ∧
    error result = Some (str (ArrowInvalid
      "/media/slr_temp_runs/run-mar/employee_summary_initial.parquet")).
Proof.
  intros compute unreadable. eexists.
  assert (Hcall : get_calculation_data compute Sample.settings Sample.media [unreadable]
    Sample.self 0 Sample.no_preferences ∅ (Some "run-mar") false = Return (_, ∅))
    by reflexivity.
  pose proof (proj1 (error_results_not_cached compute Sample.settings [unreadable]
    Sample.self Sample.media 0 Sample.no_preferences ∅ ∅ (Some "run-mar") false _ Hcall))
    as Hkept.
  split; [exact Hcall | reflexivity].
Defined.

Lemma other_cache_entries_untouched_witness :
  let compute := λ projects employees : DataFrame, (len projects, len employees) in
  let first := Sample.data_jan compute Sample.media Sample.result_jan in
  let cache1 := cache_set 0 ∅ Sample.cache_key_jan first 3600 in
  get_calculation_data compute Sample.settings Sample.media Sample.registry Sample.self
    0 Sample.no_preferences ∅ (Some "run-jan") false = Return (first, cache1) ∧
  (∀ k, cache1 !! k ≠ (∅ : gmap string (CalculationData * Z)) !! k →
     ∃ run, requested_run Sample.settings Sample.media Sample.registry Sample.self
              Sample.no_preferences (Some "run-jan") = Return (Some run) ∧
            k = _cache_prefix Sample.self +:+ "_data_" +:+ run_id run).
Proof.
  intros compute first cache1.
  assert (Hcall : get_calculation_data compute Sample.settings Sample.media Sample.registry
    Sample.self 0 Sample.no_preferences ∅ (Some "run-jan") false = Return (first, cache1))
    by reflexivity.
  split; [exact Hcall|].
  exact (proj1 (other_cache_entries_untouched compute Sample.settings Sample.registry
    Sample.self Sample.media 0 Sample.no_preferences ∅ cache1 (Some "run-jan") false
    first Hcall)).
Defined.

End ttl_witnesses.

(** ** The comparison dashboard *)

Section comparison.
Import DataAccess ViewsDashboard.
Context (settings : Settings) (fs : FileSystem) (reg : Registry).


Local Arguments load_dashboard_data : simpl never.




End comparison.

(** ** The migration of legacy run directories *)

Section migration.
Import LegacyDataMigration.
Context (settings : Settings) (fs : FileSystem) (mtime : string → Z) (now : Z).






Lemma migrate_dir_kept runs_dir existing state entry :
  migrate_dir settings fs mtime now runs_dir existing state entry
  = if kept fs runs_dir existing entry
    then (state.1 ++ [created settings fs mtime now runs_dir entry],
          state.2 ++ [created settings fs mtime now runs_dir entry])
    else state.
Proof.
  destruct entry as [id n]. unfold migrate_dir, kept, created. simpl.
  destruct (is_dir n); simpl; [|done].
  destruct (bool_decide (id ∈ existing)); simpl; [done|].
  by destruct (path_exists fs _).
Qed.

Lemma migrate_loop runs_dir existing state entries :
  foldl (migrate_dir settings fs mtime now runs_dir existing) state entries
  = (state.1 ++ (created settings fs mtime now runs_dir
                  <$> filter (kept fs runs_dir existing) entries),
     state.2 ++ (created settings fs mtime now runs_dir
                  <$> filter (kept fs runs_dir existing) entries)).
Proof.
  revert state. induction entries as [|entry entries IH]; intros [migrated reg].
  - simpl. by rewrite !app_nil_r.
  - cbn [foldl]. rewrite IH, migrate_dir_kept, filter_cons.
    destruct (kept fs runs_dir existing entry) eqn:Hkept.
    + destruct (decide _) as [_|[]]; [|done].
      rewrite fmap_cons. simpl. by rewrite <- !app_assoc.
    + by destruct (decide _) as [[]|_].
Qed.

Lemma update_summary_cache_keeps run :
  run_id (update_summary_cache settings fs run) = run_id run ∧
  created_at (update_summary_cache settings fs run) = created_at run ∧
  status (update_summary_cache settings fs run) = status run ∧
  data_directory (update_summary_cache settings fs run) = data_directory run ∧
  is_archived (update_summary_cache settings fs run) = is_archived run.
Proof. unfold update_summary_cache. by destruct (load_summary_data settings fs run). Qed.


Lemma created_fields runs_dir entry :
  let r := created settings fs mtime now runs_dir entry in
  run_id r = entry.1 ∧ created_at r = mtime (joinpath runs_dir entry.1) ∧
  status r = completed ∧ data_directory r = "slr_temp_runs/" +:+ entry.1 ∧
  is_archived r = false.
Proof.
  unfold created.
  destruct (update_summary_cache_keeps (create now entry.1 (mtime (joinpath runs_dir entry.1))))
    as (-> & -> & -> & -> & ->). done.
Qed.

Lemma created_run_ids runs_dir entries :
  run_id <$> (created settings fs mtime now runs_dir <$> entries) = entries.*1.
Proof.
  rewrite <- list_fmap_compose. apply list_fmap_ext. intros i entry _. simpl.
  apply created_fields.
Qed.


(** X17. Migrating again, with the directory unchanged, migrates nothing:
    the second call returns the empty list and leaves the table as the
    first call left it. *)
Theorem migrate_existing_runs_twice (reg : Registry) migrated reg' :
  migrate_existing_runs settings fs mtime now reg = (migrated, reg') →
  migrate_existing_runs settings fs mtime now reg' = ([], reg').
Proof.
  unfold migrate_existing_runs.
  destruct (path_exists fs (joinpath (MEDIA_ROOT settings) "slr_temp_runs")); simpl.
  2: { by intros [= <- <-]. }
  rewrite !migrate_loop. simpl. intros [= <- <-].
  set (runs_dir := joinpath (MEDIA_ROOT settings) "slr_temp_runs").
  set (existing := list_to_set (run_id <$> reg) : gset string).
  set (entries := filter (kept fs runs_dir existing) (iterdir fs runs_dir)).
  set (existing' := list_to_set (run_id <$>
    (reg ++ (created settings fs mtime now runs_dir <$> entries))) : gset string).
  assert (Hnone : filter (kept fs runs_dir existing') (iterdir fs runs_dir) = []).
  { destruct (filter (kept fs runs_dir existing') (iterdir fs runs_dir))
      as [|entry l] eqn:Hfilter; [done|].
    assert (Hentry : entry ∈ entry :: l) by apply list_elem_of_here.
    rewrite <- Hfilter in Hentry. apply list_elem_of_filter in Hentry as [Hkept' Hentry].
    apply Is_true_eq_true in Hkept'. unfold kept in Hkept'.
    apply andb_true_iff in Hkept' as [Hkept' Hresult].
    apply andb_true_iff in Hkept' as [Hdir Hnew'].
    apply negb_true_iff, bool_decide_eq_false in Hnew'. exfalso. apply Hnew'.
    subst existing'. rewrite elem_of_list_to_set, fmap_app, elem_of_app, created_run_ids.
    destruct (decide (entry.1 ∈ run_id <$> reg)) as [Hold|Hold]; [by left|right].
    apply (list_elem_of_fmap_2 fst). apply list_elem_of_filter. split; [|done].
    apply Is_true_true. unfold kept. rewrite Hdir, Hresult. simpl.
    rewrite andb_true_r. apply negb_true_iff, bool_decide_eq_false.
    subst existing. by rewrite elem_of_list_to_set. }
  rewrite Hnone. simpl. by rewrite app_nil_r.
Qed.

End migration.


Lemma migrate_existing_runs_twice_witness :
  ∃ migrated reg',
    LegacyDataMigration.migrate_existing_runs Sample.settings SampleMigration.media
      SampleMigration.mtime 5000 [Sample.run_jan] = (migrated, reg') ∧
    length migrated = 2 ∧
    LegacyDataMigration.migrate_existing_runs Sample.settings SampleMigration.media
      SampleMigration.mtime 5000 reg' = ([], reg').
Proof.
  eexists _, _.
  assert (Hcall : LegacyDataMigration.migrate_existing_runs Sample.settings
    SampleMigration.media SampleMigration.mtime 5000 [Sample.run_jan] = (_, _))
    by (vm_compute; reflexivity).
  split; [exact Hcall|]. split; [vm_compute; reflexivity|].
  exact (migrate_existing_runs_twice _ _ _ _ _ _ _ Hcall).
Defined.

(** ** The dashboard context *)

Section context.
Import DataAccess.
Context (settings : Settings) (fs : FileSystem) (reg : Registry).

Lemma get_latest_run_in_table run : get_latest_run reg = Some run → run ∈ reg.
Proof.
  unfold get_latest_run, Models.first. intros H.
  apply head_Some_elem_of in H. rewrite order_by_permutation in H.
  by apply list_elem_of_filter in H as [_ H].
Qed.

Lemma follow_preferred_run_in_table p run :
  follow_preferred_run reg p = Some run → run ∈ reg.
Proof.
  unfold follow_preferred_run. destruct (preferred_run p) as [i|]; [|done]. simpl.
  intros [H _]%find_some. by apply list_elem_of_In.
Qed.

(** The run [get_dashboard_context] settles on is a run of the table. *)
Lemma context_run_in_table (prefs : Preferences) request id :
  ∃ chosen,
    context_run settings fs reg prefs request id = Return chosen ∧
    ∀ run, chosen = Some run →
      run ∈ reg ∧ ∀ i, id = Some i → nonempty i = true → run_id run = i.
Proof.
  assert (Hpreferred : ∃ chosen,
    get_preferred_run settings fs reg prefs request = Return chosen ∧
    ∀ run, chosen = Some run → run ∈ reg).
  { rewrite get_preferred_run_value. eexists. split; [done|]. intros run.
    destruct (prefs !! get_user_identifier request) as [p|]; simpl;
      [|apply get_latest_run_in_table].
    destruct (follow_preferred_run reg p) as [preferred|] eqn:Hp;
      [|apply get_latest_run_in_table].
    destruct (is_data_available settings fs preferred); [|apply get_latest_run_in_table].
    intros [= <-]. by eapply follow_preferred_run_in_table. }
  destruct Hpreferred as (chosen & Hchosen & Hin).
  unfold context_run. destruct id as [i|].
  - destruct (nonempty i) eqn:Hi.
    + unfold runs_get. destruct (find _ reg) as [run|] eqn:Hfind; simpl.
      * eexists. split; [done|]. intros ? [= <-].
        apply find_some in Hfind as [Hrun Hid%String.eqb_eq].
        split; [by apply list_elem_of_In|]. by intros ? [= <-] _.
      * eexists. split; [done|]. by intros.
    + exists chosen. split; [done|]. intros run Hrun. split; [by apply Hin|].
      intros ? [= <-]. congruence.
  - exists chosen. split; [done|]. intros run Hrun. split; [by apply Hin | done].
Qed.

(** X18. [get_dashboard_context] never raises.  Its list of available
    runs is [get_available_runs()], whatever run is shown.  Without a
    resolved run the data is reported as 'No data available'.  When the
    data is available, the current run is a run of the table whose data is
    available, the dashboard describes that run, and when a non-empty
    explicit run id was given it is the run with that id. *)
Theorem get_dashboard_context_result (prefs : Preferences) request id :
  ∃ ctx,
    get_dashboard_context settings fs reg prefs request id = Return ctx ∧
    DataAccess.available_runs ctx = get_available_runs reg ∧
    (current_run ctx = None → dashboard_data ctx = Unavailable "No data available") ∧
    (∀ d, dashboard_data ctx = Available d →
       ∃ run, current_run ctx = Some run ∧ run ∈ reg ∧
         is_data_available settings fs run = true ∧
         ri_run_id (run_info d) = run_id run ∧
         (∀ i, id = Some i → nonempty i = true → run_id run = i)).
Proof.
  unfold get_dashboard_context.
  destruct (context_run_in_table prefs request id) as (chosen & -> & Hchosen). simpl.
  destruct (load_dashboard_data settings fs chosen) as [data|e] eqn:Hdata.
  2: { destruct chosen as [run|]; simpl in Hdata; [|discriminate].
       destruct (is_data_available settings fs run); simpl in Hdata; [|discriminate].
       unfold try_except in Hdata. by destruct (load_dashboard_body settings fs run). }
  simpl. eexists. split; [done|]. simpl. split; [done|]. split.
  - intros ->. simpl in Hdata. by injection Hdata as <-.
  - intros d ->. destruct chosen as [run|]; [|discriminate].
    destruct (Hchosen run eq_refl) as [Hin Hid]. exists run.
    apply load_dashboard_data_overall in Hdata as (Havailable & Hrest).
    destruct Hrest as (? & ? & ? & ? & ? & ? & Hrest). destruct_and!.
    repeat split; done.
Qed.

(** X19. The [has_updates] flag of an available dashboard tells which
    physical file its result table was read from: result_updated.parquet
    when the flag is set, result_initial.parquet when it is not. *)
Theorem has_updates_tells_result_file run d :
  load_dashboard_data settings fs (Some run) = Return (Available d) →
  get_latest_parquet settings fs run "result"
  = Some (joinpath (data_path settings run)
            (if ri_has_updates (run_info d) then "result_updated.parquet"
             else "result_initial.parquet")).
Proof.
  intros H. apply load_dashboard_data_overall in H as (Havailable & Hrest).
  destruct Hrest as (? & ? & ? & ? & ? & ? & Hrest). destruct_and!.
  assert (Hflag : ri_has_updates (run_info d) = has_updates settings fs run) by done.
  rewrite Hflag. unfold has_updates, get_latest_parquet. cbv zeta.
  change ("result" +:+ "_updated.parquet") with "result_updated.parquet".
  change ("result" +:+ "_initial.parquet") with "result_initial.parquet".
  destruct (path_exists fs (joinpath (data_path settings run) "result_updated.parquet"));
    [done|].
  unfold is_data_available in Havailable. cbv zeta in Havailable.
  apply andb_true_iff in Havailable as [Havailable _].
  apply andb_true_iff in Havailable as [_ ->]. done.
Qed.

End context.

Lemma has_updates_tells_result_file_witness :
  ∃ d, DataAccess.load_dashboard_data Sample.settings Sample.media (Some Sample.run_feb)
       = Return (DataAccess.Available d) ∧
    DataAccess.ri_has_updates (DataAccess.run_info d) = true ∧
    get_latest_parquet Sample.settings Sample.media Sample.run_feb "result"
    = Some "/media/slr_temp_runs/run-feb/result_updated.parquet".
Proof.
  eexists.
  assert (Hload : DataAccess.load_dashboard_data Sample.settings Sample.media
    (Some Sample.run_feb) = Return (DataAccess.Available _)) by (vm_compute; reflexivity).
  split; [exact Hload|]. split; [reflexivity|].
  exact (has_updates_tells_result_file _ _ _ _ Hload).
Defined.
